(** * phobos-postgres: the model runtime of [lib/model.js]

    A shallow embedding of [PhobosPostgresModel]: the dirty/canonical state of
    an instance, the verbs that funnel through [runQuery], and the schema set
    up by [init].  JavaScript objects are kept as ordered lists of own
    properties, the connection pool and the SQL builder ([mongo-sql]) are
    collaborators given from outside. *)

From Stdlib Require Import String Ascii List ZArith Lia Bool.
Import ListNotations.
Open Scope string_scope.

(** ** The JavaScript values the model handles *)

Module JS.

(** Numbers are the integers and NaN; fractional doubles do not occur in the
    statements below.  [VObject] carries the own enumerable properties of a
    plain object, in enumeration order.

    An object here is a plain data object: its prototype is
    [Object.prototype] and its properties are own enumerable data
    properties.  The accessor [__proto__] of [Object.prototype], through
    which a write or a copy under that name replaces the prototype instead of
    making a property, is not part of these definitions: the statements about
    a write, a copy or a loop over keys leave that name out by hypothesis. *)
#[warnings="-register-all"]
Inductive value : Type :=
| VUndefined
| VNull
| VBool (b : bool)
| VNum (n : Z)
| VNaN
| VStr (s : string)
| VObject (props : list (string * value)).

Definition object : Type := list (string * value).

(** ToBoolean. *)
Definition truthy (v : value) : bool :=
  match v with
  | VUndefined | VNull | VNaN => false
  | VBool b => b
  | VNum n => negb (n =? 0)%Z
  | VStr s => negb (s =? "")
  | VObject _ => true
  end.

(** [a || b]. *)
Definition or (a b : value) : value := if truthy a then a else b.

(** Own-property lookup; column names are ordinary data properties, so
    nothing is found through [Object.prototype]. *)
Fixpoint own_property (o : object) (k : string) : option value :=
  match o with
  | [] => None
  | (k', v) :: rest => if k' =? k then Some v else own_property rest k
  end.

(** [o[k]] as an expression, for a name that [Object.prototype] does not
    define: an own property or [undefined]. *)
Definition prop_get (o : object) (k : string) : value :=
  match own_property o k with
  | Some v => v
  | None => VUndefined
  end.

(** [o[k] = v] for a name other than [__proto__]: an existing property keeps
    its place, a new one goes last. *)
Fixpoint prop_set (o : object) (k : string) (v : value) : object :=
  match o with
  | [] => [(k, v)]
  | (k', v') :: rest =>
      if k' =? k then (k, v) :: rest else (k', v') :: prop_set rest k v
  end.

Definition Object_keys (o : object) : list string := map fst o.

(** One source of [Object.assign]: every own key of [src] is read from [src]
    and written to [target]; as for [prop_set], the keys are names other than
    [__proto__]. *)
Definition assign_from (target src : object) : object :=
  fold_left (fun t k => prop_set t k (prop_get src k)) (Object_keys src) target.

(** [Object.assign(target, ...sources)]. *)
Definition Object_assign (target : object) (sources : list object) : object :=
  fold_left assign_from sources target.

(** *** ToNumber on strings, as far as [x < 1] needs it

    [Decimal neg m e] stands for the mathematical value [(-1)^neg * m * 10^e]
    of a numeric literal, before it is rounded to a double. *)
Inductive number : Type :=
| NaN
| Infinity (negative : bool)
| Decimal (negative : bool) (digits : Z) (exponent : Z).

Definition code (a : ascii) : nat := nat_of_ascii a.

Definition digit_of (a : ascii) : option Z :=
  let c := code a in
  if (48 <=? c)%nat && (c <=? 57)%nat then Some (Z.of_nat c - 48)%Z
  else if (97 <=? c)%nat && (c <=? 102)%nat then Some (Z.of_nat c - 87)%Z
  else if (65 <=? c)%nat && (c <=? 70)%nat then Some (Z.of_nat c - 55)%Z
  else None.

(** The longest run of digits below [radix]: value, length and remainder. *)
Fixpoint read_digits (radix : Z) (s : string) (acc count : Z) : Z * Z * string :=
  match s with
  | String a rest =>
      match digit_of a with
      | Some d =>
          if (d <? radix)%Z
          then read_digits radix rest (radix * acc + d)%Z (count + 1)%Z
          else (acc, count, s)
      | None => (acc, count, s)
      end
  | EmptyString => (acc, count, s)
  end.

(** StrWhiteSpaceChar, the characters above U+007F in their UTF-8 bytes. *)
Definition ws1 (a : ascii) : bool :=
  let c := code a in ((9 <=? c)%nat && (c <=? 13)%nat) || (c =? 32)%nat.

Definition ws2 (a b : ascii) : bool :=
  (code a =? 194)%nat && (code b =? 160)%nat.

Definition ws3 (a b c : ascii) : bool :=
  ((code a =? 225) && (code b =? 154) && (code c =? 128))%nat
  || ((code a =? 226) && (code b =? 128)
      && (((128 <=? code c) && (code c <=? 138))
          || (code c =? 168) || (code c =? 169) || (code c =? 175)))%nat
  || ((code a =? 226) && (code b =? 129) && (code c =? 159))%nat
  || ((code a =? 227) && (code b =? 128) && (code c =? 128))%nat
  || ((code a =? 239) && (code b =? 187) && (code c =? 191))%nat.

Fixpoint skip_ws (s : string) : string :=
  match s with
  | String a r =>
      if ws1 a then skip_ws r
      else match r with
           | String b r1 =>
               if ws2 a b then skip_ws r1
               else match r1 with
                    | String c r2 => if ws3 a b c then skip_ws r2 else s
                    | EmptyString => s
                    end
           | EmptyString => s
           end
  | EmptyString => s
  end.

Fixpoint strip_prefix (p s : string) : option string :=
  match p, s with
  | EmptyString, _ => Some s
  | String a p', String b s' => if Ascii.eqb a b then strip_prefix p' s' else None
  | String _ _, EmptyString => None
  end.

Definition read_sign (s : string) : bool * string :=
  match s with
  | String a r =>
      if Ascii.eqb a "-" then (true, r)
      else if Ascii.eqb a "+" then (false, r)
      else (false, s)
  | EmptyString => (false, s)
  end.

(** ExponentPart, taken only when it is complete. *)
Definition read_exponent (s : string) : Z * string :=
  match s with
  | String a r =>
      if Ascii.eqb a "e" || Ascii.eqb a "E" then
        let '(neg, r1) := read_sign r in
        let '(e, n, r2) := read_digits 10 r1 0%Z 0%Z in
        if (0 <? n)%Z then ((if neg then - e else e)%Z, r2) else (0%Z, s)
      else (0%Z, s)
  | EmptyString => (0%Z, s)
  end.

(** StrDecimalLiteral: a sign, then [Infinity] or digits with an optional
    fraction and exponent; at least one digit before or after the dot. *)
Definition read_decimal (s : string) : option (number * string) :=
  let '(neg, s1) := read_sign s in
  match strip_prefix "Infinity" s1 with
  | Some r => Some (Infinity neg, r)
  | None =>
      let '(int, n_int, s2) := read_digits 10 s1 0%Z 0%Z in
      let '(m, n_frac, s3) :=
        match s2 with
        | String a r =>
            if Ascii.eqb a "." then read_digits 10 r int 0%Z else (int, 0%Z, s2)
        | EmptyString => (int, 0%Z, s2)
        end in
      if (0 <? n_int)%Z || (0 <? n_frac)%Z then
        let '(e, s4) := read_exponent s3 in
        Some (Decimal neg m (e - n_frac)%Z, s4)
      else None
  end.

(** NonDecimalIntegerLiteral: [0x], [0o], [0b] and at least one digit. *)
Definition read_non_decimal (s : string) : option (number * string) :=
  match s with
  | String z (String p r) =>
      let radix :=
        if negb (Ascii.eqb z "0") then None
        else if Ascii.eqb p "x" || Ascii.eqb p "X" then Some 16%Z
        else if Ascii.eqb p "o" || Ascii.eqb p "O" then Some 8%Z
        else if Ascii.eqb p "b" || Ascii.eqb p "B" then Some 2%Z
        else None in
      match radix with
      | Some b =>
          let '(v, n, r') := read_digits b r 0%Z 0%Z in
          if (0 <? n)%Z then Some (Decimal false v 0%Z, r') else None
      | None => None
      end
  | _ => None
  end.

Definition StringToNumber (s : string) : number :=
  let s := skip_ws s in
  match s with
  | EmptyString => Decimal false 0%Z 0%Z
  | _ =>
      let parsed :=
        match read_non_decimal s with
        | Some r => Some r
        | None => read_decimal s
        end in
      match parsed with
      | Some (n, rest) =>
          match skip_ws rest with EmptyString => n | _ => NaN end
      | None => NaN
      end
  end.

(** [n < 1] after rounding to a double: the doubles below 1 are the reals
    below [1 - 2^-54] (the midpoint under 1 rounds up to 1). *)
Definition lt_one (n : number) : bool :=
  match n with
  | NaN => false
  | Infinity negative => negative
  | Decimal true _ _ => true
  | Decimal false m e =>
      if (0 <=? e)%Z then (m =? 0)%Z
      else (m * 2 ^ 54 <? (2 ^ 54 - 1) * 10 ^ (- e))%Z
  end.

(** [keys < 1] for an array of strings: the array becomes its elements
    joined by commas, the string becomes a number. *)
Definition array_lt_one (keys : list string) : bool :=
  lt_one (StringToNumber (String.concat "," keys)).

(** The first character of a column identifier: a letter, [_] or [$]. *)
Definition identifier_start (a : ascii) : bool :=
  let c := code a in
  ((65 <=? c)%nat && (c <=? 90)%nat) || ((97 <=? c)%nat && (c <=? 122)%nat)
  || (c =? 95)%nat || (c =? 36)%nat.

End JS.

Import JS.


(** ** Data of the runtime *)

(** A model instance: the target behind the [ModelProxy] the constructor
    returns. *)
Record instance : Type := {
  table : string;
  _dirty : object;
  _canonical : object
}.

(** The object handed to [mongo-sql]; an absent key is [None]. *)
Module Descriptor.
Record t : Type := {
  type : string;
  table : string;
  limit : option value;
  order : option string;
  where_ : option object;
  columns : option (list string);
  values : option object;
  returning : option (list string);
  ifNotExists : option bool;
  definition : option object
}.
End Descriptor.

(** What [mongo-sql] gives back: [query] and [values]. *)
Record sql : Type := { query : string; values : list value }.

Inductive exn : Type :=
| Error (message : string)
| TypeError
| DriverError (message : string).

(** What the pool passes to the callback of [store.query]. *)
Record result : Type := { rows : list object; rowCount : Z }.

Inductive reply : Type :=
| Failed (err : exn)
| Succeeded (res : result).

(** The pool: how it answers a query, and, for a streaming call, whether the
    callback of [connect] runs before the callback of [query]. *)
Record pool : Type := {
  answer : string -> list value -> reply;
  connect_first : bool
}.

(** Static state of a model class. *)
Record model_class : Type := {
  name : string;
  attributes : option object;
  fields : option object;
  store : option pool
}.

(** The third argument of [runQuery]; [None] is a key left out. *)
Record options : Type := {
  stream : option bool;
  lean : option bool;
  first : option bool;
  last : option bool
}.

Definition no_options : options :=
  {| stream := None; lean := None; first := None; last := None |}.

(** What a promise settles to. *)
Inductive item : Type :=
| Raw (v : value)
| Model (i : instance).

Inductive resolution : Type :=
| One (x : item)
| Many (xs : list item)
| QueryStream (query : string) (params : list value).

Inductive promise : Type :=
| Resolved (r : resolution)
| Rejected (e : exn).

Inductive completion (A : Type) : Type :=
| Return (a : A)
| Throw (e : exn).
Arguments Return {A} a.
Arguments Throw {A} e.

(** What the outside sees: calls of the [queryLog] hook, queries given to
    [store.query], clients taken with [store.connect]. *)
Record world : Type := {
  logged : list (option string * option (list value));
  submitted : list (string * list value);
  connected : list (string * list value)
}.

Definition log (q : option string) (p : option (list value)) (w : world) : world :=
  {| logged := logged w ++ [(q, p)]; submitted := submitted w; connected := connected w |}.

Definition submit (q : string) (p : list value) (w : world) : world :=
  {| logged := logged w; submitted := submitted w ++ [(q, p)]; connected := connected w |}.

Definition connect (q : string) (p : list value) (w : world) : world :=
  {| logged := logged w; submitted := submitted w; connected := connected w ++ [(q, p)] |}.

Definition default {A : Type} (d : A) (o : option A) : A :=
  match o with Some a => a | None => d end.

(** [rows[i]], [undefined] past the end. *)
Definition row_at (rs : list object) (i : Z) : option object :=
  if (i <? 0)%Z then None else nth_error rs (Z.to_nat i).

Definition raw (row : option object) : value :=
  match row with Some r => VObject r | None => VUndefined end.

Definition with_attributes (C : model_class) (a : object) : model_class :=
  {| name := name C; attributes := Some a; fields := fields C; store := store C |}.

Definition with_fields (C : model_class) (f : object) : model_class :=
  {| name := name C; attributes := attributes C; fields := Some f; store := store C |}.

Definition with_store (C : model_class) (db : pool) : model_class :=
  {| name := name C; attributes := attributes C; fields := fields C; store := Some db |}.

(** The column definitions [init] writes itself. *)
Definition serial_primary_key : value :=
  VObject [("type", VStr "serial"); ("primaryKey", VBool true)].

Definition timestamp_now : value :=
  VObject [("type", VStr "timestamptz"); ("default", VStr "now()")].

(** ** The connection settings of [lib/postgres.js] *)

Module Postgres.

(** What [URL.parse] returns, as far as it is read; each part is a string or
    [null]. *)
Record Url : Type := {
  auth : value;
  hostname : value;
  port : value;
  pathname : value
}.

(** [s.split(sep)] for a separator of one character. *)
Fixpoint split (sep : ascii) (s : string) : list string :=
  match s with
  | EmptyString => [""]
  | String a r =>
      if Ascii.eqb a sep then "" :: split sep r
      else match split sep r with
           | piece :: pieces => String a piece :: pieces
           | [] => [String a ""]
           end
  end.

(** [parts[i]]. *)
Definition element (parts : list string) (i : nat) : value :=
  match nth_error parts i with
  | Some s => VStr s
  | None => VUndefined
  end.

Fixpoint has_char (c : ascii) (s : string) : bool :=
  match s with
  | EmptyString => false
  | String a r => Ascii.eqb a c || has_char c r
  end.

(** [parseURIString(uri)]; [split] on a part that is [null] throws. *)
Definition parseURIString (URL_parse : string -> Url) (uri : string)
  : completion object :=
  let parsed := URL_parse uri in
  match auth parsed with
  | VStr a =>
      let auth := split ":" a in
      match pathname parsed with
      | VStr p =>
          Return [("user", element auth 0);
                  ("password", element auth 1);
                  ("host", hostname parsed);
                  ("port", port parsed);
                  ("database", element (split "/" p) 1)]
      | _ => Throw TypeError
      end
  | _ => Throw TypeError
  end.

(** The settings [init(options)] gives to [_connect]:
    [Object.assign({}, DefaultOptions.config, pgConnection)], where
    [pgConnection] is the parsed [options.connection.uri] when there is one
    and [options.connection] otherwise.  [defaults] is
    [DefaultOptions.config]; [connection] is [options.connection], [None]
    when it is left out. *)
Definition pgConfig (URL_parse : string -> Url) (defaults : object)
    (connection : option object) : completion object :=
  match connection with
  | None => Throw TypeError
  | Some connection =>
      let uri := prop_get connection "uri" in
      if truthy uri then
        match uri with
        | VStr u =>
            match parseURIString URL_parse u with
            | Return pgConnection => Return (Object_assign [] [defaults; pgConnection])
            | Throw e => Throw e
            end
        | _ => Throw TypeError
        end
      else Return (Object_assign [] [defaults; connection])
  end.

(** [URL.parse] of the URI of the test suite,
    [postgres://postgres:@localhost:5432/test]. *)
Definition test_url : Url :=
  {| auth := VStr "postgres:"; hostname := VStr "localhost";
     port := VStr "5432"; pathname := VStr "/test" |}.

End Postgres.

(** ** Concrete collaborators and data, used where a statement is evaluated *)

Module Sample.

Definition lower_char (a : ascii) : ascii :=
  let c := code a in
  if (65 <=? c)%nat && (c <=? 90)%nat then ascii_of_nat (c + 32) else a.

Fixpoint toLowerCase (s : string) : string :=
  match s with
  | EmptyString => EmptyString
  | String a r => String (lower_char a) (toLowerCase r)
  end.

(** Regular nouns only. *)
Definition pluralize (s : string) : string := s ++ "s".

(** A stand-in for mongo-sql: a statement that names its kind and table,
    with the written values, the filter values and the limit as parameters. *)
Definition sql_of (d : Descriptor.t) : sql :=
  {| query := Descriptor.type d ++ " " ++ Descriptor.table d;
     values :=
       map snd (default [] (Descriptor.values d))
       ++ map snd (default [] (Descriptor.where_ d))
       ++ match Descriptor.limit d with Some l => [l] | None => [] end |}.

Definition base : model_class :=
  {| name := "PhobosPostgresModel"; attributes := None; fields := None; store := None |}.

(** A pool that answers every query with the rows [rs]. *)
Definition pool_of (rs : list object) : pool :=
  {| answer := fun _ _ => Succeeded {| rows := rs; rowCount := Z.of_nat (length rs) |};
     connect_first := true |}.

Definition varchar30 : value := VObject [("type", VStr "varchar(30)")].

(** [class Model extends PhobosPostgresModel { }], nothing declared yet. *)
Definition Model : model_class :=
  {| name := "Model"; attributes := None; fields := None; store := None |}.

(** The same class after [Model.attribute('username', { type: 'varchar(30)' })]
    and [Model.init(db)]. *)
Definition TestModel (db : pool) : model_class :=
  {| name := "Model";
     attributes := Some [("username", varchar30)];
     fields := Some [("id", serial_primary_key); ("username", varchar30);
                     ("created_at", timestamp_now); ("updated_at", timestamp_now)];
     store := Some db |}.

Definition quiet : world := {| logged := []; submitted := []; connected := [] |}.

Definition billy : object := [("id", VNum 1); ("username", VStr "Billy")].
Definition helen : object := [("id", VNum 1); ("username", VStr "helen")].
Definition bill : object := [("id", VNum 2); ("username", VStr "bill")].

End Sample.

(** A property name that starts like an identifier.  Names that read as
    array indices are enumerated before all others whenever they were added;
    for names like identifiers the order of enumeration is the order of
    insertion, which is the order the lists above keep. *)
Definition identifier (k : string) : bool :=
  match k with
  | String c _ => identifier_start c
  | EmptyString => false
  end.

(** ** More pools and rows for the statements at concrete inputs *)

Module Fixtures.

(** A pool that fails every query. *)
Definition refusing : pool :=
  {| answer := fun _ _ => Failed (DriverError "connection refused");
     connect_first := true |}.

(** A pool that reports one affected row and returns none, as for a
    statement without RETURNING. *)
Definition affecting : pool :=
  {| answer := fun _ _ => Succeeded {| rows := []; rowCount := 1 |};
     connect_first := true |}.

Definition count_row : object := [("count", VStr "1")].

(** [new Model({ username: 'bill' })], before it is saved. *)
Definition fresh : object := [("username", VStr "bill")].

Definition URL_parse (uri : string) : Postgres.Url := Postgres.test_url.

Definition defaults : object := [("port", VNum 5432); ("max", VNum 10)].

End Fixtures.

(** ** The model class *)

Section PhobosPostgresModel.

(** Collaborators: [Inflected.pluralize], [String.prototype.toLowerCase],
    [Query.sql] of mongo-sql, and the static state of the base class, on
    which [save] and [delete] call [runQuery] when there is nothing to do. *)
Variable Inflected_pluralize : string -> string.
Variable toLowerCase : string -> string.
Variable Query_sql : Descriptor.t -> sql.
Variable PhobosPostgresModel : model_class.

(** [static get table()]. *)
Definition class_table (this : model_class) : string :=
  Inflected_pluralize (toLowerCase (name this)).

(** [constructor(data = {})], for the class [C] being instantiated. *)
Definition new (C : model_class) (data : option object) : instance :=
  let data := default [] data in
  let table := Inflected_pluralize (toLowerCase (name C)) in
  if truthy (prop_get data "id")
  then {| table := table; _dirty := []; _canonical := data |}
  else {| table := table; _dirty := data; _canonical := [] |}.

(** [set(prop, value)], for a [prop] other than [__proto__]: the value of the
    assignment and the instance after. *)
Definition set (this : instance) (prop : string) (value : JS.value)
  : JS.value * instance :=
  (value,
   {| table := table this;
      _dirty := prop_set (_dirty this) prop value;
      _canonical := _canonical this |}).

Definition get (this : instance) (prop : string) : value :=
  JS.or (prop_get (_dirty this) prop) (prop_get (_canonical this) prop).

Definition toObject (this : instance) : object :=
  Object_assign [] [_canonical this; _dirty this].

(** [lean ? row : new (this)(row)]. *)
Definition materialize (this : model_class) (lean : bool) (row : option object) : item :=
  if lean then Raw (raw row) else Model (new this row).

(** The callback given to [store.query]. *)
Definition on_result (this : model_class) (lean first last : bool) (r : reply) : promise :=
  match r with
  | Failed err => Rejected err
  | Succeeded result =>
      if first && (0 <? rowCount result)%Z then
        Resolved (One (materialize this lean (row_at (rows result) 0)))
      else if last && (0 <? rowCount result)%Z then
        Resolved (One (materialize this lean (row_at (rows result) (rowCount result - 1))))
      else if lean then
        Resolved (Many (map (fun row => Raw (VObject row)) (rows result)))
      else
        Resolved (Many (map (fun row => Model (new this (Some row))) (rows result)))
  end.

(** [static runQuery(query, params, { stream, lean, first, last })].  The
    pool answers before anything else runs; a class without a store fails
    inside the executor, which rejects the promise. *)
Definition runQuery (this : model_class) (query : option string)
    (params : option (list value)) (o : options) (w : world) : promise * world :=
  let '(stream, lean, first, last) :=
    (default false (stream o), default false (lean o),
     default false (first o), default true (last o)) in
  let w := log query params w in
  match query, params with
  | Some q, Some p =>
      if q =? "" then (Resolved (Many []), w)
      else
        match store this with
        | None => (Rejected TypeError, w)
        | Some db =>
            let w := if stream then connect q p w else w in
            let w := submit q p w in
            if stream && connect_first db then (Resolved (QueryStream q p), w)
            else (on_result this lean first last (answer db q p), w)
        end
  | _, _ => (Resolved (Many []), w)
  end.

(** The descriptor [save] builds: [where] is set whatever the type is. *)
Definition save_query (this : instance) (returning : list string) : Descriptor.t :=
  let queryType :=
    if truthy (prop_get (_canonical this) "id") then "update" else "insert" in
  {| Descriptor.type := queryType;
     Descriptor.table := table this;
     Descriptor.limit := None;
     Descriptor.order := None;
     Descriptor.where_ := Some [("id", prop_get (_canonical this) "id")];
     Descriptor.columns := None;
     Descriptor.values := Some (_dirty this);
     Descriptor.returning := Some returning;
     Descriptor.ifNotExists := None;
     Descriptor.definition := None |}.

(** [save()] on an instance of class [C]: what the call completes with, the
    instance afterwards, the world afterwards.  [Object.keys] of the fields
    of a class that was never initialised throws. *)
Definition save (C : model_class) (this : instance) (w : world)
  : completion promise * instance * world :=
  if array_lt_one (Object_keys (_dirty this)) then
    let '(p, w) := runQuery PhobosPostgresModel None None no_options w in
    (Return p, this, w)
  else
    match fields C with
    | None => (Throw TypeError, this, w)
    | Some fs =>
        let queryObject := Query_sql (save_query this (Object_keys fs)) in
        let '(p, w) :=
          runQuery C (Some (query queryObject)) (Some (values queryObject)) no_options w in
        (Return p, this, w)
    end.

(** [delete()]. *)
Definition delete (C : model_class) (this : instance) (w : world)
  : completion promise * instance * world :=
  if negb (truthy (prop_get (_canonical this) "id")) then
    let '(p, w) := runQuery PhobosPostgresModel None None no_options w in
    (Return p, this, w)
  else
    let queryObject :=
      Query_sql
        {| Descriptor.type := "delete";
           Descriptor.table := table this;
           Descriptor.limit := None;
           Descriptor.order := None;
           Descriptor.where_ := Some [("id", prop_get (_canonical this) "id")];
           Descriptor.columns := None;
           Descriptor.values := None;
           Descriptor.returning := None;
           Descriptor.ifNotExists := None;
           Descriptor.definition := None |} in
    let '(p, w) :=
      runQuery C (Some (query queryObject)) (Some (values queryObject)) no_options w in
    (Return p, this, w).

(** [static all({ limit = 20, order = 'ASC', sort = 'id' } = {})]. *)
Definition all (this : model_class) (limit : option value) (order sort : option string)
    (w : world) : promise * world :=
  let '(limit, order, sort) :=
    (default (VNum 20) limit, default "ASC" order, default "id" sort) in
  let queryObject :=
    Query_sql
      {| Descriptor.type := "select";
         Descriptor.table := class_table this;
         Descriptor.limit := Some limit;
         Descriptor.order := Some (sort ++ " " ++ order);
         Descriptor.where_ := None;
         Descriptor.columns := None;
         Descriptor.values := None;
         Descriptor.returning := None;
         Descriptor.ifNotExists := None;
         Descriptor.definition := None |} in
  runQuery this (Some (query queryObject)) (Some (values queryObject)) no_options w.

(** [static find({ limit = 20, order = 'ASC', sort = 'id', where = {} } = {})]. *)
Definition find (this : model_class) (limit : option value) (order sort : option string)
    (where_ : option object) (w : world) : promise * world :=
  let '(limit, order, sort, where_) :=
    (default (VNum 20) limit, default "ASC" order, default "id" sort,
     default [] where_) in
  let queryObject :=
    Query_sql
      {| Descriptor.type := "select";
         Descriptor.table := class_table this;
         Descriptor.limit := Some limit;
         Descriptor.order := Some (sort ++ " " ++ order);
         Descriptor.where_ := Some where_;
         Descriptor.columns := None;
         Descriptor.values := None;
         Descriptor.returning := None;
         Descriptor.ifNotExists := None;
         Descriptor.definition := None |} in
  runQuery this (Some (query queryObject)) (Some (values queryObject)) no_options w.

(** [static one(id)]. *)
Definition one (this : model_class) (id : value) (w : world)
  : completion promise * world :=
  if negb (truthy id) then
    (Throw (Error "Model#one() requires an ID parameter"), w)
  else
    let queryObject :=
      Query_sql
        {| Descriptor.type := "select";
           Descriptor.table := class_table this;
           Descriptor.limit := Some (VNum 1);
           Descriptor.order := None;
           Descriptor.where_ := Some [("id", id)];
           Descriptor.columns := None;
           Descriptor.values := None;
           Descriptor.returning := None;
           Descriptor.ifNotExists := None;
           Descriptor.definition := None |} in
    let '(p, w) :=
      runQuery this (Some (query queryObject)) (Some (values queryObject))
        {| stream := None; lean := None; first := Some true; last := None |} w in
    (Return p, w).

(** [static count(where)]. *)
Definition count (this : model_class) (where_ : option object) (w : world)
  : promise * world :=
  let queryObject :=
    Query_sql
      {| Descriptor.type := "select";
         Descriptor.table := class_table this;
         Descriptor.limit := None;
         Descriptor.order := None;
         Descriptor.where_ := where_;
         Descriptor.columns := Some ["count(*)"];
         Descriptor.values := None;
         Descriptor.returning := None;
         Descriptor.ifNotExists := None;
         Descriptor.definition := None |} in
  runQuery this (Some (query queryObject)) (Some (values queryObject)) no_options w.

(** [static attribute(name, properties)], for a [name] other than
    [__proto__]. *)
Definition attribute (this : model_class) (name : string) (properties : value)
  : completion unit * model_class :=
  if name =? "" then
    (Throw (Error "Model.attribute() must provide an attribute name"), this)
  else
    (Return tt,
     with_attributes this (prop_set (default [] (attributes this)) name properties)).

(** The [fields] that [init] builds: [id], then the loop over the declared
    attributes, then the two timestamps.  The declared attributes are a plain
    object without a key [__proto__], so the loop runs over its own keys. *)
Definition init_fields (this : model_class) : object :=
  let fields := [("id", serial_primary_key)] in
  let declared := default [] (attributes this) in
  let fields :=
    fold_left (fun fields attr => prop_set fields attr (prop_get declared attr))
      (Object_keys declared) fields in
  let fields := prop_set fields "created_at" timestamp_now in
  prop_set fields "updated_at" timestamp_now.

(** [static init(db)]: the promise, the class afterwards, the world. *)
Definition init (this : model_class) (db : pool) (w : world)
  : promise * model_class * world :=
  let this := with_fields this (init_fields this) in
  let queryObject :=
    Query_sql
      {| Descriptor.type := "create-table";
         Descriptor.table := class_table this;
         Descriptor.limit := None;
         Descriptor.order := None;
         Descriptor.where_ := None;
         Descriptor.columns := None;
         Descriptor.values := None;
         Descriptor.returning := None;
         Descriptor.ifNotExists := Some true;
         Descriptor.definition := fields this |} in
  let this := with_store this db in
  let '(p, w) :=
    runQuery this (Some (query queryObject)) (Some (values queryObject)) no_options w in
  (p, this, w).

(** A run of [set] calls, in order. *)
Definition set_all (this : instance) (writes : list (string * value)) : instance :=
  fold_left (fun i kv => snd (set i (fst kv) (snd kv))) writes this.


(** ** Properties of objects *)

Local Open Scope list_scope.
Set Default Proof Using "Type".

Lemma own_property_prop_set (o : object) (k k' : string) (v : value) :
  own_property (prop_set o k v) k' = if k =? k' then Some v else own_property o k'.
Proof.
  induction o as [|[k0 v0] rest IH]; simpl.
  - reflexivity.
  - destruct (String.eqb_spec k0 k) as [->|Hne]; simpl.
    + destruct (k =? k'); reflexivity.
    + rewrite IH.
      destruct (String.eqb_spec k0 k') as [->|Hne'].
      * destruct (String.eqb_spec k k') as [->|_]; [contradiction | reflexivity].
      * reflexivity.
Qed.

Lemma own_property_None (o : object) (k : string) :
  own_property o k = None <-> ~ In k (Object_keys o).
Proof.
  induction o as [|[k0 v0] rest IH]; simpl.
  - split; [intros _ [] | reflexivity].
  - destruct (String.eqb_spec k0 k) as [->|Hne].
    + split; [discriminate | intros H; exfalso; apply H; now left].
    + rewrite IH. split.
      * intros H [Heq|Hin]; [contradiction | now apply H].
      * intros H Hin. apply H. now right.
Qed.

Lemma own_property_prop_get (o : object) (k : string) :
  In k (Object_keys o) -> own_property o k = Some (prop_get o k).
Proof.
  intros Hin. unfold prop_get.
  destruct (own_property o k) eqn:E; [reflexivity|].
  apply own_property_None in E. contradiction.
Qed.

(** A loop that writes [g k] under every key [k] of [ks]. *)
Lemma own_property_fold_set (g : string -> value) (ks : list string) (t : object) (k : string) :
  own_property (fold_left (fun t k => prop_set t k (g k)) ks t) k
  = if in_dec string_dec k ks then Some (g k) else own_property t k.
Proof.
  revert t. induction ks as [|k0 ks IH]; intros t; simpl.
  - reflexivity.
  - rewrite IH. rewrite own_property_prop_set.
    destruct (in_dec string_dec k ks) as [Hin|Hnin].
    + destruct (string_dec k0 k); reflexivity.
    + destruct (string_dec k0 k) as [->|Hne].
      * now rewrite String.eqb_refl.
      * destruct (String.eqb_spec k0 k); [contradiction | reflexivity].
Qed.

Lemma own_property_assign_from (t s : object) (k : string) :
  own_property (assign_from t s) k
  = match own_property s k with Some v => Some v | None => own_property t k end.
Proof.
  unfold assign_from. rewrite own_property_fold_set.
  destruct (in_dec string_dec k (Object_keys s)) as [Hin|Hnin].
  - now rewrite (own_property_prop_get _ _ Hin).
  - apply own_property_None in Hnin. now rewrite Hnin.
Qed.

Lemma Object_keys_prop_set (o : object) (k : string) (v : value) :
  Object_keys (prop_set o k v)
  = if in_dec string_dec k (Object_keys o) then Object_keys o else Object_keys o ++ [k].
Proof.
  induction o as [|[k0 v0] rest IH]; simpl.
  - reflexivity.
  - destruct (String.eqb_spec k0 k) as [->|Hne]; simpl.
    + destruct (string_dec k k); [reflexivity | contradiction].
    + rewrite IH. unfold Object_keys.
      destruct (string_dec k0 k); [contradiction|].
      destruct (in_dec string_dec k (map fst rest)); reflexivity.
Qed.

Lemma NoDup_prop_set (o : object) (k : string) (v : value) :
  NoDup (Object_keys o) -> NoDup (Object_keys (prop_set o k v)).
Proof.
  intros H. rewrite Object_keys_prop_set.
  destruct (in_dec string_dec k (Object_keys o)) as [Hin|Hnin]; [exact H|].
  apply NoDup_app; [exact H | repeat constructor; intros [] | ].
  intros x Hx [<-|[]]. contradiction.
Qed.

Lemma NoDup_fold_set (g : string -> value) (ks : list string) (t : object) :
  NoDup (Object_keys t) ->
  NoDup (Object_keys (fold_left (fun t k => prop_set t k (g k)) ks t)).
Proof.
  revert t. induction ks as [|k ks IH]; intros t H; simpl; [exact H|].
  apply IH. now apply NoDup_prop_set.
Qed.

Lemma prop_set_fresh (o : object) (k : string) (v : value) :
  ~ In k (Object_keys o) -> prop_set o k v = o ++ [(k, v)].
Proof.
  induction o as [|[k0 v0] rest IH]; simpl; intros H.
  - reflexivity.
  - destruct (String.eqb_spec k0 k) as [->|Hne].
    + exfalso. apply H. now left.
    + f_equal. apply IH. intros Hin. apply H. now right.
Qed.

(** Copying the tail [suf] of an object with distinct keys behind its head
    [pre] rebuilds the object. *)
Lemma copy_tail (suf pre : object) :
  NoDup (Object_keys (pre ++ suf)) ->
  fold_left (fun t k => prop_set t k (prop_get (pre ++ suf) k)) (Object_keys suf) pre
  = pre ++ suf.
Proof.
  revert pre. induction suf as [|[k v] suf IH]; intros pre Hnd; simpl.
  - now rewrite app_nil_r.
  - assert (Hfresh : ~ In k (Object_keys pre)).
    { unfold Object_keys in *. rewrite map_app in Hnd. simpl in Hnd.
      apply NoDup_remove_2 in Hnd. intros Hin. apply Hnd.
      apply in_or_app. now left. }
    assert (Hget : prop_get (pre ++ (k, v) :: suf) k = v).
    { unfold prop_get. clear IH Hnd. induction pre as [|[k1 v1] pre IHp]; simpl.
      - now rewrite String.eqb_refl.
      - destruct (String.eqb_spec k1 k) as [->|Hne].
        + exfalso. apply Hfresh. now left.
        + apply IHp. intros Hin. apply Hfresh. now right. }
    rewrite Hget. rewrite (prop_set_fresh _ _ _ Hfresh).
    replace (pre ++ (k, v) :: suf) with ((pre ++ [(k, v)]) ++ suf)
      by (now rewrite <- app_assoc).
    apply IH. now rewrite <- app_assoc.
Qed.

Lemma assign_from_empty (o : object) :
  NoDup (Object_keys o) -> assign_from [] o = o.
Proof. intros H. exact (copy_tail o [] H). Qed.

(** ** The comparison of a key list with 1 *)

Lemma array_lt_one_empty : array_lt_one [] = true.
Proof. reflexivity. Qed.

(** A single key that reads as a number below 1 passes for no keys. *)
Lemma array_lt_one_numeric_key : array_lt_one ["0"] = true.
Proof. reflexivity. Qed.

Lemma identifier_start_code (c : ascii) :
  identifier_start c = true ->
  (code c = 36 \/ 65 <= code c <= 90 \/ code c = 95 \/ 97 <= code c <= 122)%nat.
Proof.
  unfold identifier_start. intros H.
  repeat (apply orb_true_iff in H; destruct H as [H|H]);
    try (apply andb_true_iff in H; destruct H as [H1 H2];
         apply Nat.leb_le in H1; apply Nat.leb_le in H2; lia);
    apply Nat.eqb_eq in H; lia.
Qed.

Lemma skip_ws_identifier (c : ascii) (t : string) :
  identifier_start c = true -> skip_ws (String c t) = String c t.
Proof.
  intros Hc. apply identifier_start_code in Hc.
  assert (H1 : ws1 c = false).
  { unfold ws1. apply orb_false_iff. split.
    - apply andb_false_iff. right. apply Nat.leb_gt. lia.
    - apply Nat.eqb_neq. lia. }
  assert (Hne : forall n, (122 < n)%nat -> (code c =? n)%nat = false).
  { intros n Hn. apply Nat.eqb_neq. lia. }
  assert (H2 : forall b, ws2 c b = false).
  { intros b. unfold ws2. rewrite Hne by lia. reflexivity. }
  assert (H3 : forall b b', ws3 c b b' = false).
  { intros b b'. unfold ws3. rewrite !Hne by lia. reflexivity. }
  destruct t as [|b [|b' t]]; cbn [skip_ws]; rewrite H1, ?H2, ?H3; reflexivity.
Qed.

(** An identifier character is none of [- + . 0]. *)
Lemma identifier_start_other (c d : ascii) :
  identifier_start c = true -> identifier_start d = false -> Ascii.eqb c d = false.
Proof.
  intros Hc Hd. destruct (Ascii.eqb_spec c d) as [->|_]; [congruence | reflexivity].
Qed.

Lemma digit_of_identifier (c : ascii) :
  identifier_start c = true ->
  match digit_of c with Some d => (d <? 10)%Z = false | None => True end.
Proof.
  intros Hc. apply identifier_start_code in Hc. unfold digit_of.
  destruct ((48 <=? code c)%nat && (code c <=? 57)%nat) eqn:E1.
  { apply andb_true_iff in E1. destruct E1 as [A B].
    apply Nat.leb_le in A. apply Nat.leb_le in B. lia. }
  destruct ((97 <=? code c)%nat && (code c <=? 102)%nat) eqn:E2.
  { apply andb_true_iff in E2. destruct E2 as [A B].
    apply Nat.leb_le in A. apply Z.ltb_ge. lia. }
  destruct ((65 <=? code c)%nat && (code c <=? 70)%nat) eqn:E3; [|exact I].
  apply andb_true_iff in E3. destruct E3 as [A B].
  apply Nat.leb_le in A. apply Z.ltb_ge. lia.
Qed.

Lemma read_digits_identifier (c : ascii) (t : string) (acc n : Z) :
  identifier_start c = true ->
  read_digits 10 (String c t) acc n = (acc, n, String c t).
Proof.
  intros Hc. apply digit_of_identifier in Hc. cbn [read_digits].
  destruct (digit_of c) as [d|]; [now rewrite Hc | reflexivity].
Qed.

Lemma read_decimal_identifier (c : ascii) (t : string) :
  identifier_start c = true ->
  read_decimal (String c t)
  = match strip_prefix "Infinity" (String c t) with
    | Some r => Some (Infinity false, r)
    | None => None
    end.
Proof.
  intros Hc. unfold read_decimal, read_sign.
  rewrite !(identifier_start_other c _ Hc) by reflexivity.
  destruct (strip_prefix "Infinity" (String c t)); [reflexivity|].
  rewrite (read_digits_identifier c t _ _ Hc).
  rewrite (identifier_start_other c "." Hc) by reflexivity. reflexivity.
Qed.

Lemma StringToNumber_identifier (c : ascii) (t : string) :
  identifier_start c = true -> lt_one (StringToNumber (String c t)) = false.
Proof.
  intros Hc. unfold StringToNumber. rewrite (skip_ws_identifier c t Hc).
  assert (Hnd : read_non_decimal (String c t) = None).
  { unfold read_non_decimal. destruct t as [|p r]; [reflexivity|].
    now rewrite (identifier_start_other c "0" Hc). }
  rewrite Hnd, (read_decimal_identifier c t Hc).
  destruct (strip_prefix "Infinity" (String c t)) as [r|]; [|reflexivity].
  destruct (skip_ws r); reflexivity.
Qed.

(** Dirty keys whose first one starts like an identifier never pass for
    no keys. *)
Lemma array_lt_one_identifier (c : ascii) (t : string) (ks : list string) :
  identifier_start c = true -> array_lt_one (String c t :: ks) = false.
Proof.
  intros Hc. unfold array_lt_one.
  destruct ks as [|k ks]; cbn [String.concat].
  - now apply StringToNumber_identifier.
  - change (String c t ++ "," ++ String.concat "," (k :: ks))%string
      with (String c (t ++ "," ++ String.concat "," (k :: ks))%string).
    now apply StringToNumber_identifier.
Qed.

(** ** Reading and writing fields *)

Lemma get_reads (this : instance) (prop : string) :
  get this prop
  = match own_property (_dirty this) prop with
    | Some v => if truthy v then v else prop_get (_canonical this) prop
    | None => prop_get (_canonical this) prop
    end.
Proof.
  unfold get, JS.or, prop_get.
  destruct (own_property (_dirty this) prop) as [v|]; reflexivity.
Qed.

Lemma set_all_canonical (writes : list (string * value)) (this : instance) :
  _canonical (set_all this writes) = _canonical this.
Proof.
  revert this. induction writes as [|[k v] writes IH]; intros this; simpl.
  - reflexivity.
  - unfold set_all in *. simpl. now rewrite IH.
Qed.

Lemma set_all_last_write (writes : list (string * value)) (this : instance)
    (k : string) (v : value) :
  own_property (_dirty (set_all this (writes ++ [(k, v)]))) k = Some v.
Proof.
  unfold set_all. rewrite fold_left_app. simpl.
  rewrite own_property_prop_set. now rewrite String.eqb_refl.
Qed.

(** Whatever was written before, a field reads back its last written value
    only when that value is truthy. *)
Lemma get_after_set (writes : list (string * value)) (this : instance)
    (k : string) (v : value) :
  get (set_all this (writes ++ [(k, v)])) k
  = if truthy v then v else prop_get (_canonical this) k.
Proof.
  rewrite get_reads, set_all_last_write, set_all_canonical. reflexivity.
Qed.

(** C1 (the code departs from it): [get] should return the dirty value
    whenever the dirty map has an entry for the field, falsy values included.
    On a persisted row whose [count] is 5, after [set('count', 0)] the dirty
    map holds 0 under [count] and [toObject] shows 0, yet [get('count')]
    returns the canonical 5. *)
Theorem get_skips_falsy_dirty_value (C : model_class) :
  let this :=
    snd (set (new C (Some [("id", VNum 1); ("count", VNum 5)])) "count" (VNum 0)) in
  own_property (_dirty this) "count" = Some (VNum 0)
  /\ get this "count" = VNum 5
  /\ own_property (toObject this) "count" = Some (VNum 0).
Proof. repeat split. Qed.

(** ** The plain object of an instance *)

Lemma toObject_unfold (this : instance) :
  toObject this = assign_from (assign_from [] (_canonical this)) (_dirty this).
Proof. reflexivity. Qed.

(** C7: [toObject()] is the key-wise union of canonical and dirty, the dirty
    value taken wherever both define the key; no key occurs twice.  The maps
    hold data properties: neither has an own key [__proto__], which
    [Object.assign] would hand to the prototype setter. *)
Theorem toObject_union (this : instance) :
  ~ In "__proto__"%string (Object_keys (_canonical this)) ->
  ~ In "__proto__"%string (Object_keys (_dirty this)) ->
  NoDup (Object_keys (toObject this))
  /\ forall k : string,
       own_property (toObject this) k
       = match own_property (_dirty this) k with
         | Some v => Some v
         | None => own_property (_canonical this) k
         end.
Proof.
  intros _ _. rewrite toObject_unfold. split.
  - unfold assign_from. apply NoDup_fold_set, NoDup_fold_set. constructor.
  - intros k. rewrite !own_property_assign_from. simpl.
    destruct (own_property (_dirty this) k); [reflexivity|].
    destruct (own_property (_canonical this) k); reflexivity.
Qed.

(** ** Construction *)

Lemma new_falsy_id (C : model_class) (data : object) :
  truthy (prop_get data "id") = false ->
  _dirty (new C (Some data)) = data /\ _canonical (new C (Some data)) = [].
Proof. unfold new. simpl. intros ->. split; reflexivity. Qed.

Lemma new_truthy_id (C : model_class) (data : object) :
  truthy (prop_get data "id") = true ->
  _canonical (new C (Some data)) = data /\ _dirty (new C (Some data)) = [].
Proof. unfold new. simpl. intros ->. split; reflexivity. Qed.

(** C10: a data object whose [id] is falsy (absent, 0, '', null) becomes the
    dirty map and canonical stays empty; a truthy [id], and only that, makes
    the data canonical and leaves dirty empty. *)
Theorem new_by_id (C : model_class) (data : object) :
  (truthy (prop_get data "id") = false ->
     _dirty (new C (Some data)) = data /\ _canonical (new C (Some data)) = [])
  /\ (truthy (prop_get data "id") = true ->
     _canonical (new C (Some data)) = data /\ _dirty (new C (Some data)) = []).
Proof.
  split; [apply new_falsy_id | apply new_truthy_id].
Qed.

Lemma toObject_new (C : model_class) (row : object) :
  NoDup (Object_keys row) -> toObject (new C (Some row)) = row.
Proof.
  intros Hnd. rewrite toObject_unfold. unfold new. simpl.
  destruct (truthy (prop_get row "id")); simpl.
  - now rewrite assign_from_empty.
  - change (assign_from [] []) with (@nil (string * value)).
    now apply assign_from_empty.
Qed.

(** C8 (amended): a row comes back from [toObject()] field for field.
    With a truthy [id] the dirty map of the instance built from it is empty
    and contributes nothing; with a falsy [id] the row is the dirty map, the
    canonical map is empty, and every field comes from the dirty map.  A row
    is an object of data properties: no key occurs twice in it and none is
    [__proto__]. *)
Theorem toObject_new_persisted (C : model_class) (row : object) :
  NoDup (Object_keys row) ->
  ~ In "__proto__"%string (Object_keys row) ->
  toObject (new C (Some row)) = row
  /\ (truthy (prop_get row "id") = true ->
      _dirty (new C (Some row)) = [] /\ _canonical (new C (Some row)) = row)
  /\ (truthy (prop_get row "id") = false ->
      _dirty (new C (Some row)) = row /\ _canonical (new C (Some row)) = []).
Proof.
  intros Hnd _. split; [|split].
  - now apply toObject_new.
  - intros Hid. destruct (new_truthy_id C row Hid). now split.
  - apply new_falsy_id.
Qed.

(** ** Running a query *)

(** [runQuery()] without arguments: the hook is called, nothing else. *)
Lemma runQuery_nothing (this : model_class) (o : options) (w : world) :
  runQuery this None None o w = (Resolved (Many []), log None None w).
Proof. unfold runQuery. destruct o as [[[]|] l f la]; reflexivity. Qed.

Lemma row_at_last (rs : list object) (d : object) :
  rs <> [] -> row_at rs (Z.of_nat (length rs) - 1) = Some (List.last rs d).
Proof.
  intros Hne. unfold row_at.
  destruct rs as [|r rs]; [contradiction|]. clear Hne.
  replace (Z.of_nat (length (r :: rs)) - 1)%Z with (Z.of_nat (length rs))
    by (simpl length; lia).
  destruct (Z.ltb_spec (Z.of_nat (length rs)) 0) as [Hlt|_]; [lia|].
  rewrite Nat2Z.id. revert r.
  induction rs as [|r' rs IH]; intros r; [reflexivity|].
  simpl length. simpl nth_error. rewrite IH. reflexivity.
Qed.

(** With the default options the promise of a query that returned rows
    resolves to one instance, built from the last row. *)
Lemma runQuery_default_last (this : model_class) (q : string) (p : list value)
    (w : world) (db : pool) (res : result) :
  q <> "" ->
  store this = Some db ->
  answer db q p = Succeeded res ->
  rows res <> [] ->
  rowCount res = Z.of_nat (length (rows res)) ->
  runQuery this (Some q) (Some p) no_options w
  = (Resolved (One (Model (new this (Some (List.last (rows res) []))))),
     submit q p (log (Some q) (Some p) w)).
Proof.
  intros Hq Hstore Hans Hrows Hcount. unfold runQuery. simpl.
  apply String.eqb_neq in Hq. rewrite Hq, Hstore. simpl. rewrite Hans.
  unfold on_result. simpl.
  assert (Hpos : (0 <? rowCount res)%Z = true).
  { apply Z.ltb_lt. rewrite Hcount. destruct (rows res); [contradiction | simpl; lia]. }
  rewrite Hpos. unfold materialize.
  rewrite Hcount, (row_at_last _ [] Hrows). reflexivity.
Qed.

(** C6 (amended): a non-streaming [runQuery] whose query was executed,
    returned no rows and reports a row count of 0 resolves to the empty
    array, whatever [first], [last] and [lean] are. *)
Theorem runQuery_zero_rows (this : model_class) (q : string) (p : list value)
    (o : options) (w : world) (db : pool) (res : result) :
  default false (stream o) = false ->
  q <> "" ->
  store this = Some db ->
  answer db q p = Succeeded res ->
  rows res = [] ->
  rowCount res = 0%Z ->
  runQuery this (Some q) (Some p) o w
  = (Resolved (Many []), submit q p (log (Some q) (Some p) w)).
Proof.
  intros Hstream Hq Hstore Hans Hrows Hcount. unfold runQuery.
  rewrite Hstream. apply String.eqb_neq in Hq. rewrite Hq, Hstore. simpl.
  rewrite Hans. unfold on_result. rewrite Hcount, Hrows. simpl.
  rewrite !andb_false_r. destruct (default false (lean o)); reflexivity.
Qed.

(** ** Saving *)

(** C4: [save()] on an instance whose dirty map is empty gives no query to
    the pool, takes no client, resolves (to the empty array) and leaves the
    instance, its canonical map included, as it was; only the logging hook is
    called. *)
Theorem save_clean (C : model_class) (this : instance) (w : world) :
  _dirty this = [] ->
  save C this w = (Return (Resolved (Many [])), this, log None None w)
  /\ submitted (log None None w) = submitted w
  /\ connected (log None None w) = connected w.
Proof.
  intros Hclean. unfold save. rewrite Hclean.
  cbn [Object_keys map]. rewrite array_lt_one_empty, runQuery_nothing.
  repeat split.
Qed.

(** C2 (amended): when [save()] gets past its no-changes guard and the
    write succeeds with at least one returned row, the promise resolves to a
    new instance constructed from the last returned row, and the instance
    that was saved keeps its dirty and canonical maps: nothing is promoted
    into it and its dirty map is not cleared. *)
Theorem save_resolves_new_instance (C : model_class) (this : instance) (w : world)
    (fs : object) (db : pool) (res : result) :
  let queryObject := Query_sql (save_query this (Object_keys fs)) in
  array_lt_one (Object_keys (_dirty this)) = false ->
  fields C = Some fs ->
  store C = Some db ->
  query queryObject <> "" ->
  answer db (query queryObject) (values queryObject) = Succeeded res ->
  rows res <> [] ->
  rowCount res = Z.of_nat (length (rows res)) ->
  save C this w
  = (Return (Resolved (One (Model (new C (Some (List.last (rows res) [])))))),
     this,
     submit (query queryObject) (values queryObject)
       (log (Some (query queryObject)) (Some (values queryObject)) w)).
Proof.
  intros queryObject Hguard Hfields Hstore Hq Hans Hrows Hcount.
  unfold save. rewrite Hguard, Hfields. fold queryObject.
  rewrite (runQuery_default_last C _ _ w db res Hq Hstore Hans Hrows Hcount).
  reflexivity.
Qed.

(** ** Fetching *)

(** C5: [one(id)] with a falsy [id] (0, null, undefined, '') throws at once,
    before the hook is called or the pool is touched: the world is as it
    was. *)
Theorem one_falsy_id_throws (this : model_class) (id : value) (w : world) :
  truthy id = false ->
  one this id w = (Throw (Error "Model#one() requires an ID parameter"), w).
Proof. intros Hid. unfold one. now rewrite Hid. Qed.

(** [all()] on a class with a store, once the pool has returned rows. *)
Lemma all_resolves_last (this : model_class) (limit : option value)
    (order sort : option string) (w : world) (db : pool) (res : result) :
  let queryObject :=
    Query_sql
      {| Descriptor.type := "select";
         Descriptor.table := class_table this;
         Descriptor.limit := Some (default (VNum 20) limit);
         Descriptor.order := Some (default "id" sort ++ " " ++ default "ASC" order)%string;
         Descriptor.where_ := None;
         Descriptor.columns := None;
         Descriptor.values := None;
         Descriptor.returning := None;
         Descriptor.ifNotExists := None;
         Descriptor.definition := None |} in
  query queryObject <> "" ->
  store this = Some db ->
  answer db (query queryObject) (values queryObject) = Succeeded res ->
  rows res <> [] ->
  rowCount res = Z.of_nat (length (rows res)) ->
  fst (all this limit order sort w)
  = Resolved (One (Model (new this (Some (List.last (rows res) []))))).
Proof.
  intros queryObject Hq Hstore Hans Hrows Hcount.
  change (all this limit order sort w)
    with (runQuery this (Some (query queryObject)) (Some (values queryObject)) no_options w).
  now rewrite (runQuery_default_last this _ _ w db res Hq Hstore Hans Hrows Hcount).
Qed.

(** ** Schema *)

Lemma init_sets_fields (this : model_class) (db : pool) (w : world) :
  fields (snd (fst (init this db w))) = Some (init_fields this).
Proof.
  unfold init.
  destruct (runQuery _ _ _ _ _) as [p w']. reflexivity.
Qed.

Lemma own_property_init_fields (this : model_class) (k : string) :
  own_property (init_fields this) k
  = if (k =? "updated_at")%string || (k =? "created_at")%string then Some timestamp_now
    else match own_property (default [] (attributes this)) k with
         | Some v => Some v
         | None => if (k =? "id")%string then Some serial_primary_key else None
         end.
Proof.
  unfold init_fields.
  rewrite !own_property_prop_set.
  rewrite (String.eqb_sym "updated_at" k), (String.eqb_sym "created_at" k).
  destruct (k =? "updated_at")%string; [reflexivity|].
  destruct (k =? "created_at")%string; [reflexivity|]. cbn [orb].
  change (fold_left _ _ _)
    with (assign_from [("id", serial_primary_key)] (default [] (attributes this))).
  rewrite own_property_assign_from.
  destruct (own_property (default [] (attributes this)) k); [reflexivity|].
  cbn [own_property]. rewrite (String.eqb_sym "id" k).
  destruct (k =? "id")%string; reflexivity.
Qed.

(** C9 (amended): after [init()] the class has a [fields] mapping in
    which [created_at] and [updated_at] carry the timestamp definition, every
    other declared attribute carries its declared definition, and [id] is
    the serial primary key unless an attribute named [id] was declared.  The
    declared attributes are data properties: none is named [__proto__]. *)
Theorem init_fields_columns (this : model_class) (db : pool) (w : world) :
  ~ In "__proto__"%string (Object_keys (default [] (attributes this))) ->
  exists fs : object,
    fields (snd (fst (init this db w))) = Some fs
    /\ forall k : string,
         own_property fs k
         = if (k =? "updated_at")%string || (k =? "created_at")%string
           then Some timestamp_now
           else match own_property (default [] (attributes this)) k with
                | Some declared => Some declared
                | None => if (k =? "id")%string then Some serial_primary_key else None
                end.
Proof.
  intros _. exists (init_fields this). split.
  - apply init_sets_fields.
  - apply own_property_init_fields.
Qed.

(** ** Further properties: fields *)

(** X1: a truthy value written with [set] under a name other than
    [__proto__] is what [set] returns and what [get] reads back, whatever the
    instance held before. *)
Theorem set_then_get (this : instance) (prop : string) (v : value) :
  prop <> "__proto__"%string ->
  truthy v = true ->
  fst (set this prop v) = v /\ get (snd (set this prop v)) prop = v.
Proof.
  intros _ Hv. split; [reflexivity|].
  rewrite get_reads. cbn [set snd _dirty].
  rewrite own_property_prop_set, String.eqb_refl. now rewrite Hv.
Qed.

(** X2: writing one field, under a name other than [__proto__], leaves
    every other field as it reads through [get] and as it shows in
    [toObject()]. *)
Theorem set_other_field (this : instance) (prop other : string) (v : value) :
  prop <> "__proto__"%string ->
  other <> prop ->
  get (snd (set this prop v)) other = get this other
  /\ own_property (toObject (snd (set this prop v))) other
     = own_property (toObject this) other.
Proof.
  intros _ Hne.
  assert (Hd : own_property (_dirty (snd (set this prop v))) other
               = own_property (_dirty this) other).
  { cbn [set snd _dirty]. rewrite own_property_prop_set.
    destruct (String.eqb_spec prop other) as [->|_]; [contradiction | reflexivity]. }
  split.
  - rewrite !get_reads, Hd. reflexivity.
  - rewrite !toObject_unfold, !own_property_assign_from, Hd. reflexivity.
Qed.

(** X3: no run of [set] calls reaches the canonical map or the table name;
    writes go to the dirty map only. *)
Theorem writes_stay_dirty (this : instance) (writes : list (string * value)) :
  _canonical (set_all this writes) = _canonical this
  /\ table (set_all this writes) = table this.
Proof.
  revert this. induction writes as [|[k v] writes IH]; intros this.
  - split; reflexivity.
  - change (set_all this ((k, v) :: writes))
      with (set_all (snd (set this k v)) writes).
    destruct (IH (snd (set this k v))) as [Hc Ht]. now rewrite Hc, Ht.
Qed.

(** X4: [toObject()] shows the last value written to a field, falsy values
    included; the field is not named [__proto__], under which a write makes
    no property. *)
Theorem toObject_last_write (this : instance) (writes : list (string * value))
    (k : string) (v : value) :
  k <> "__proto__"%string ->
  own_property (toObject (set_all this (writes ++ [(k, v)]))) k = Some v.
Proof.
  intros _. rewrite toObject_unfold, own_property_assign_from.
  now rewrite set_all_last_write.
Qed.

(** ** Further properties: [runQuery] *)

(** X5: whatever it is given, [runQuery] calls the logging hook once, with
    its own arguments, and gives the pool nothing or the one query it was
    given. *)
Theorem runQuery_effects (this : model_class) (query : option string)
    (params : option (list value)) (o : options) (w : world) :
  logged (snd (runQuery this query params o w)) = logged w ++ [(query, params)]
  /\ (submitted (snd (runQuery this query params o w)) = submitted w
      \/ exists q p, query = Some q /\ params = Some p
           /\ submitted (snd (runQuery this query params o w)) = submitted w ++ [(q, p)]).
Proof.
  unfold runQuery.
  destruct query as [q|], params as [p|]; try (split; [reflexivity | now left]).
  destruct (q =? "")%string; [split; [reflexivity | now left]|].
  destruct (store this) as [db|]; [|split; [reflexivity | now left]].
  destruct (default false (stream o)); cbn [andb];
    [destruct (connect_first db)|];
    (split; [reflexivity | right; exists q, p; repeat split]).
Qed.

(** X6: without a query, with an empty query or without parameters,
    [runQuery] resolves to the empty array and leaves the pool alone. *)
Theorem runQuery_without_query (this : model_class) (query : option string)
    (params : option (list value)) (o : options) (w : world) :
  query = None \/ query = Some "" \/ params = None ->
  runQuery this query params o w = (Resolved (Many []), log query params w).
Proof.
  intros H. unfold runQuery.
  destruct H as [ -> | [ -> | -> ] ].
  - reflexivity.
  - destruct params; reflexivity.
  - destruct query; reflexivity.
Qed.

(** X7: an error of the pool rejects the promise with that same error,
    whatever [first], [last] and [lean] are. *)
Theorem runQuery_rejects (this : model_class) (q : string) (p : list value)
    (o : options) (w : world) (db : pool) (err : exn) :
  default false (stream o) = false ->
  q <> "" ->
  store this = Some db ->
  answer db q p = Failed err ->
  runQuery this (Some q) (Some p) o w
  = (Rejected err, submit q p (log (Some q) (Some p) w)).
Proof.
  intros Hstream Hq Hstore Hans. unfold runQuery.
  rewrite Hstream. apply String.eqb_neq in Hq. rewrite Hq, Hstore. cbn [andb].
  now rewrite Hans.
Qed.

(** X8: on a class that was never given a store the promise is rejected
    with a TypeError; the hook has been called, the query went nowhere. *)
Theorem runQuery_without_store (this : model_class) (q : string) (p : list value)
    (o : options) (w : world) :
  q <> "" ->
  store this = None ->
  runQuery this (Some q) (Some p) o w = (Rejected TypeError, log (Some q) (Some p) w).
Proof.
  intros Hq Hstore. unfold runQuery.
  apply String.eqb_neq in Hq. now rewrite Hq, Hstore.
Qed.

(** X9: with [first], a result that has rows resolves to its first row, as
    an instance or, with [lean], as the raw row; [last] plays no part. *)
Theorem runQuery_first (this : model_class) (q : string) (p : list value)
    (o : options) (w : world) (db : pool) (res : result) (r : object)
    (rest : list object) :
  default false (stream o) = false ->
  default false (first o) = true ->
  q <> "" ->
  store this = Some db ->
  answer db q p = Succeeded res ->
  rows res = r :: rest ->
  rowCount res = Z.of_nat (length (rows res)) ->
  fst (runQuery this (Some q) (Some p) o w)
  = Resolved (One (if default false (lean o) then Raw (VObject r)
                   else Model (new this (Some r)))).
Proof.
  intros Hstream Hfirst Hq Hstore Hans Hrows Hcount. unfold runQuery.
  rewrite Hstream, Hfirst. apply String.eqb_neq in Hq. rewrite Hq, Hstore.
  cbn [andb fst]. rewrite Hans. unfold on_result.
  assert (Hpos : (0 <? rowCount res)%Z = true).
  { apply Z.ltb_lt. rewrite Hcount, Hrows. simpl length. lia. }
  rewrite Hpos, Hrows. cbn [andb]. unfold materialize.
  destruct (default false (lean o)); reflexivity.
Qed.

(** X10: every row comes back, in the order of the result, only when
    [last: false] is passed (and [first] is not): as raw rows with [lean], as
    instances otherwise. *)
Theorem runQuery_every_row (this : model_class) (q : string) (p : list value)
    (o : options) (w : world) (db : pool) (res : result) :
  default false (stream o) = false ->
  default false (first o) = false ->
  last o = Some false ->
  q <> "" ->
  store this = Some db ->
  answer db q p = Succeeded res ->
  fst (runQuery this (Some q) (Some p) o w)
  = Resolved (Many (if default false (lean o)
                    then map (fun row => Raw (VObject row)) (rows res)
                    else map (fun row => Model (new this (Some row))) (rows res))).
Proof.
  intros Hstream Hfirst Hlast Hq Hstore Hans. unfold runQuery.
  rewrite Hstream, Hfirst, Hlast. apply String.eqb_neq in Hq. rewrite Hq, Hstore.
  cbn [andb fst default]. rewrite Hans. unfold on_result. cbn [andb].
  destruct (default false (lean o)); reflexivity.
Qed.

(** X11: a result that counts rows but carries none (a statement without
    RETURNING) resolves, unless [last: false] is passed, to a single item
    made from no row: a new empty instance, or [undefined] with [lean]. *)
Theorem runQuery_count_without_rows (this : model_class) (q : string)
    (p : list value) (o : options) (w : world) (db : pool) (res : result) :
  default false (stream o) = false ->
  default true (last o) = true ->
  q <> "" ->
  store this = Some db ->
  answer db q p = Succeeded res ->
  rows res = [] ->
  (0 < rowCount res)%Z ->
  fst (runQuery this (Some q) (Some p) o w)
  = Resolved (One (if default false (lean o) then Raw VUndefined
                   else Model (new this None))).
Proof.
  intros Hstream Hlast Hq Hstore Hans Hrows Hcount. unfold runQuery.
  rewrite Hstream, Hlast. apply String.eqb_neq in Hq. rewrite Hq, Hstore.
  cbn [andb fst]. rewrite Hans. unfold on_result.
  apply Z.ltb_lt in Hcount. rewrite Hcount, Hrows, !andb_true_r.
  assert (Hnone : forall i, row_at [] i = None).
  { intros i. unfold row_at. destruct (i <? 0)%Z; [reflexivity|].
    now destruct (Z.to_nat i). }
  rewrite !Hnone. unfold materialize.
  destruct (default false (first o)), (default false (lean o)); reflexivity.
Qed.

(** X12: a streaming call takes a client from the pool and, not returning
    there, gives the same query to [store.query] as well; when the client
    arrives first the promise resolves to the query stream. *)
Theorem runQuery_stream (this : model_class) (q : string) (p : list value)
    (o : options) (w : world) (db : pool) :
  default false (stream o) = true ->
  q <> "" ->
  store this = Some db ->
  snd (runQuery this (Some q) (Some p) o w)
  = submit q p (connect q p (log (Some q) (Some p) w))
  /\ (connect_first db = true ->
      fst (runQuery this (Some q) (Some p) o w) = Resolved (QueryStream q p)).
Proof.
  intros Hstream Hq Hstore. unfold runQuery.
  rewrite Hstream. apply String.eqb_neq in Hq. rewrite Hq, Hstore. cbn [andb].
  destruct (connect_first db); split; try reflexivity; discriminate.
Qed.

(** ** Further properties: the verbs *)

(** A call that does not stream, on a class with a store: the query is
    logged and submitted, the promise is what the callback makes of the
    answer. *)
Lemma runQuery_settles (this : model_class) (q : string) (p : list value)
    (o : options) (w : world) (db : pool) :
  default false (stream o) = false ->
  q <> "" ->
  store this = Some db ->
  runQuery this (Some q) (Some p) o w
  = (on_result this (default false (lean o)) (default false (first o))
       (default true (last o)) (answer db q p),
     submit q p (log (Some q) (Some p) w)).
Proof.
  intros Hstream Hq Hstore. unfold runQuery.
  rewrite Hstream. apply String.eqb_neq in Hq. now rewrite Hq, Hstore.
Qed.

Lemma row_at_nil (i : Z) : row_at [] i = None.
Proof.
  unfold row_at. destruct (i <? 0)%Z; [reflexivity|]. now destruct (Z.to_nat i).
Qed.

(** X13: [delete()] on an instance without a truthy canonical [id] gives
    nothing to the pool, resolves to the empty array and leaves the instance
    as it was. *)
Theorem delete_unsaved (C : model_class) (this : instance) (w : world) :
  truthy (prop_get (_canonical this) "id") = false ->
  delete C this w = (Return (Resolved (Many [])), this, log None None w).
Proof.
  intros Hid. unfold delete. rewrite Hid. cbn [negb].
  now rewrite runQuery_nothing.
Qed.

(** X14: [delete()] on a persisted instance submits the delete statement
    keyed by the canonical [id].  When the pool reports deleted rows and
    returns none, the promise resolves to a new empty instance, and the
    instance that was deleted still holds its canonical and dirty maps. *)
Theorem delete_persisted (C : model_class) (this : instance) (w : world)
    (db : pool) (res : result) :
  let queryObject :=
    Query_sql
      {| Descriptor.type := "delete";
         Descriptor.table := table this;
         Descriptor.limit := None;
         Descriptor.order := None;
         Descriptor.where_ := Some [("id", prop_get (_canonical this) "id")];
         Descriptor.columns := None;
         Descriptor.values := None;
         Descriptor.returning := None;
         Descriptor.ifNotExists := None;
         Descriptor.definition := None |} in
  truthy (prop_get (_canonical this) "id") = true ->
  query queryObject <> "" ->
  store C = Some db ->
  answer db (query queryObject) (values queryObject) = Succeeded res ->
  rows res = [] ->
  (0 < rowCount res)%Z ->
  delete C this w
  = (Return (Resolved (One (Model (new C None)))),
     this,
     submit (query queryObject) (values queryObject)
       (log (Some (query queryObject)) (Some (values queryObject)) w)).
Proof.
  intros queryObject Hid Hq Hstore Hans Hrows Hcount.
  unfold delete. rewrite Hid. cbn [negb]. fold queryObject.
  rewrite (runQuery_settles C _ _ _ w db) by first [reflexivity | assumption].
  rewrite Hans.
  unfold on_result. apply Z.ltb_lt in Hcount.
  cbn [no_options first last lean default andb]. rewrite Hcount, Hrows, row_at_nil.
  reflexivity.
Qed.

(** X15: [one(id)] with a truthy [id], when the pool returns rows, resolves
    to one instance built from the first row, not to an array. *)
Theorem one_found (this : model_class) (id : value) (w : world) (db : pool)
    (res : result) (r : object) (rest : list object) :
  let queryObject :=
    Query_sql
      {| Descriptor.type := "select";
         Descriptor.table := class_table this;
         Descriptor.limit := Some (VNum 1);
         Descriptor.order := None;
         Descriptor.where_ := Some [("id", id)];
         Descriptor.columns := None;
         Descriptor.values := None;
         Descriptor.returning := None;
         Descriptor.ifNotExists := None;
         Descriptor.definition := None |} in
  truthy id = true ->
  query queryObject <> "" ->
  store this = Some db ->
  answer db (query queryObject) (values queryObject) = Succeeded res ->
  rows res = r :: rest ->
  rowCount res = Z.of_nat (length (rows res)) ->
  one this id w
  = (Return (Resolved (One (Model (new this (Some r))))),
     submit (query queryObject) (values queryObject)
       (log (Some (query queryObject)) (Some (values queryObject)) w)).
Proof.
  intros queryObject Hid Hq Hstore Hans Hrows Hcount.
  unfold one. rewrite Hid. cbn [negb]. fold queryObject.
  rewrite (runQuery_settles this _ _ _ w db) by first [reflexivity | assumption].
  rewrite Hans.
  unfold on_result. cbn [first last lean default andb].
  assert (Hpos : (0 <? rowCount res)%Z = true).
  { apply Z.ltb_lt. rewrite Hcount, Hrows. simpl length. lia. }
  rewrite Hpos, Hrows. reflexivity.
Qed.

(** X16: [one(id)] with a truthy [id], when the pool returns no row,
    resolves to the empty array: that is how a missing record shows. *)
Theorem one_not_found (this : model_class) (id : value) (w : world) (db : pool)
    (res : result) :
  let queryObject :=
    Query_sql
      {| Descriptor.type := "select";
         Descriptor.table := class_table this;
         Descriptor.limit := Some (VNum 1);
         Descriptor.order := None;
         Descriptor.where_ := Some [("id", id)];
         Descriptor.columns := None;
         Descriptor.values := None;
         Descriptor.returning := None;
         Descriptor.ifNotExists := None;
         Descriptor.definition := None |} in
  truthy id = true ->
  query queryObject <> "" ->
  store this = Some db ->
  answer db (query queryObject) (values queryObject) = Succeeded res ->
  rows res = [] ->
  rowCount res = 0%Z ->
  fst (one this id w) = Return (Resolved (Many [])).
Proof.
  intros queryObject Hid Hq Hstore Hans Hrows Hcount.
  unfold one. rewrite Hid. cbn [negb]. fold queryObject.
  rewrite (runQuery_settles this _ _ _ w db) by first [reflexivity | assumption].
  rewrite Hans.
  unfold on_result. rewrite Hcount, Hrows. reflexivity.
Qed.

(** X17: [count(where)] resolves to a model instance, not to a number: the
    one row of the count has no [id], so it becomes the dirty map of a new
    instance. *)
Theorem count_resolves_instance (this : model_class) (where_ : option object)
    (w : world) (db : pool) (row : object) :
  let queryObject :=
    Query_sql
      {| Descriptor.type := "select";
         Descriptor.table := class_table this;
         Descriptor.limit := None;
         Descriptor.order := None;
         Descriptor.where_ := where_;
         Descriptor.columns := Some ["count(*)"%string];
         Descriptor.values := None;
         Descriptor.returning := None;
         Descriptor.ifNotExists := None;
         Descriptor.definition := None |} in
  query queryObject <> "" ->
  store this = Some db ->
  answer db (query queryObject) (values queryObject)
  = Succeeded {| rows := [row]; rowCount := 1 |} ->
  truthy (prop_get row "id") = false ->
  fst (count this where_ w)
  = Resolved (One (Model {| table := class_table this; _dirty := row;
                            _canonical := [] |})).
Proof.
  intros queryObject Hq Hstore Hans Hid.
  unfold count. fold queryObject.
  rewrite (runQuery_settles this _ _ _ w db) by first [reflexivity | assumption].
  rewrite Hans.
  unfold on_result, materialize, new, class_table.
  cbn [no_options first last lean default andb rows rowCount fst].
  change (0 <? 1)%Z with true. change (row_at [row] (1 - 1)) with (Some row).
  cbn [default]. now rewrite Hid.
Qed.

(** X18: [find()], like [all()], runs with the default options: when the
    pool returns rows the promise resolves to one instance, built from the
    last row.  A [where] left out is sent as the empty object. *)
Theorem find_resolves_last (this : model_class) (limit : option value)
    (order sort : option string) (where_ : option object) (w : world)
    (db : pool) (res : result) :
  let queryObject :=
    Query_sql
      {| Descriptor.type := "select";
         Descriptor.table := class_table this;
         Descriptor.limit := Some (default (VNum 20) limit);
         Descriptor.order := Some (default "id" sort ++ " " ++ default "ASC" order)%string;
         Descriptor.where_ := Some (default [] where_);
         Descriptor.columns := None;
         Descriptor.values := None;
         Descriptor.returning := None;
         Descriptor.ifNotExists := None;
         Descriptor.definition := None |} in
  query queryObject <> "" ->
  store this = Some db ->
  answer db (query queryObject) (values queryObject) = Succeeded res ->
  rows res <> [] ->
  rowCount res = Z.of_nat (length (rows res)) ->
  find this limit order sort where_ w
  = (Resolved (One (Model (new this (Some (List.last (rows res) []))))),
     submit (query queryObject) (values queryObject)
       (log (Some (query queryObject)) (Some (values queryObject)) w)).
Proof.
  intros queryObject Hq Hstore Hans Hrows Hcount.
  change (find this limit order sort where_ w)
    with (runQuery this (Some (query queryObject)) (Some (values queryObject)) no_options w).
  exact (runQuery_default_last this _ _ w db res Hq Hstore Hans Hrows Hcount).
Qed.

(** ** Further properties: [save] *)


(** X19: [save()] with changes on a class that was never initialised throws
    a TypeError at once: nothing is logged, nothing reaches the pool. *)
Theorem save_uninitialised (C : model_class) (this : instance) (w : world) :
  array_lt_one (Object_keys (_dirty this)) = false ->
  fields C = None ->
  save C this w = (Throw TypeError, this, w).
Proof. intros Hguard Hfields. unfold save. now rewrite Hguard, Hfields. Qed.

(** X20: [save()] writes nothing whenever the keys of the dirty map, taken
    as a number, are below 1; besides the empty dirty map that is a dirty map
    whose only field is named by a number below 1, such as ['0']. *)
Theorem save_skipped (C : model_class) (this : instance) (w : world) :
  array_lt_one (Object_keys (_dirty this)) = true ->
  save C this w = (Return (Resolved (Many [])), this, log None None w).
Proof.
  intros Hguard. unfold save. rewrite Hguard. now rewrite runQuery_nothing.
Qed.



(** ** Further properties: the schema *)

(** X23: [attribute] with an empty name throws and declares nothing; with a
    name other than [__proto__] it records the definition under that name,
    replaces what was declared there, keeps every other declaration and
    touches nothing else of the class. *)
Theorem attribute_declares (this : model_class) (attr : string) (properties : value) :
  attribute this "" properties
  = (Throw (Error "Model.attribute() must provide an attribute name"), this)
  /\ (attr <> "" ->
      attr <> "__proto__" ->
      let C := snd (attribute this attr properties) in
      fst (attribute this attr properties) = Return tt
      /\ name C = name this /\ fields C = fields this /\ store C = store this
      /\ forall k : string,
           own_property (default [] (attributes C)) k
           = if (attr =? k)%string then Some properties
             else own_property (default [] (attributes this)) k).
Proof.
  split; [reflexivity|].
  intros Hne _ C. unfold C, attribute.
  apply String.eqb_neq in Hne. rewrite Hne.
  repeat split. intros k. cbn [snd with_attributes attributes default].
  apply own_property_prop_set.
Qed.

Lemma prop_get_behind (pre suf : object) (k : string) (v : value) :
  ~ In k (Object_keys pre) -> prop_get (pre ++ (k, v) :: suf) k = v.
Proof.
  intros Hfresh. unfold prop_get.
  induction pre as [|[k1 v1] pre IH]; simpl.
  - now rewrite String.eqb_refl.
  - destruct (String.eqb_spec k1 k) as [->|Hne].
    + exfalso. apply Hfresh. now left.
    + apply IH. intros Hin. apply Hfresh. now right.
Qed.

(** Copying the tail [suf] of an object behind an object that has none of its
    keys appends it. *)
Lemma copy_behind (suf seen acc : object) :
  NoDup (Object_keys (seen ++ suf)) ->
  (forall k, In k (Object_keys suf) -> ~ In k (Object_keys acc)) ->
  fold_left (fun t k => prop_set t k (prop_get (seen ++ suf) k)) (Object_keys suf) acc
  = acc ++ suf.
Proof.
  revert seen acc. induction suf as [|[k v] suf IH]; intros seen acc Hnd Hacc; simpl.
  - now rewrite app_nil_r.
  - assert (Hseen : ~ In k (Object_keys seen)).
    { unfold Object_keys in *. rewrite map_app in Hnd. simpl in Hnd.
      apply NoDup_remove_2 in Hnd. intros Hin. apply Hnd.
      apply in_or_app. now left. }
    assert (Hsuf : ~ In k (Object_keys suf)).
    { unfold Object_keys in *. rewrite map_app in Hnd. simpl in Hnd.
      apply NoDup_remove_2 in Hnd. intros Hin. apply Hnd.
      apply in_or_app. now right. }
    rewrite (prop_get_behind seen suf k v Hseen).
    rewrite prop_set_fresh by (apply Hacc; now left).
    replace (seen ++ (k, v) :: suf) with ((seen ++ [(k, v)]) ++ suf)
      by (now rewrite <- app_assoc).
    rewrite IH.
    + now rewrite <- app_assoc.
    + now rewrite <- app_assoc.
    + intros k' Hin. unfold Object_keys. rewrite map_app. simpl.
      intros Hin'. apply in_app_or in Hin'. destruct Hin' as [Hin'|[<-|[]]].
      * apply (Hacc k'); [now right | exact Hin'].
      * contradiction.
Qed.

(** X24: when the declared attributes have distinct names, all like
    identifiers and none of them [__proto__], [id], [created_at] or
    [updated_at], the fields after [init()] are [id] first, then the declared
    attributes in the order of their declaration, then [created_at] and
    [updated_at]. *)
Theorem init_column_order (this : model_class) (db : pool) (w : world) :
  let declared := default [] (attributes this) in
  forallb identifier (Object_keys declared) = true ->
  ~ In "__proto__"%string (Object_keys declared) ->
  NoDup (Object_keys declared) ->
  ~ In "id"%string (Object_keys declared) ->
  ~ In "created_at"%string (Object_keys declared) ->
  ~ In "updated_at"%string (Object_keys declared) ->
  fields (snd (fst (init this db w)))
  = Some (("id"%string, serial_primary_key) :: declared
          ++ [("created_at"%string, timestamp_now); ("updated_at"%string, timestamp_now)]).
Proof.
  intros declared _ _ Hnd Hid Hc Hu. rewrite init_sets_fields. f_equal.
  unfold init_fields. fold declared.
  assert (Hcopy := copy_behind declared [] [("id"%string, serial_primary_key)] Hnd).
  cbn [app] in Hcopy. rewrite Hcopy.
  2:{ intros k Hin [<-|[]]. contradiction. }
  rewrite (prop_set_fresh (_ :: declared) "created_at").
  2:{ cbn [app Object_keys map fst]. intros [Heq|Hin]; [discriminate | contradiction]. }
  rewrite prop_set_fresh.
  2:{ unfold Object_keys. rewrite map_app. cbn [app map fst].
      intros [Heq|Hin]; [discriminate|]. apply in_app_or in Hin.
      destruct Hin as [Hin|[Heq|[]]]; [contradiction | discriminate]. }
  cbn [app]. now rewrite <- app_assoc.
Qed.

(** X25: [init(db)] binds [db] as the store of the class, keeps its name and
    declared attributes, and gives [db] one statement: the create-table of
    the class's table, if it does not exist, with the new fields as
    definition.  Calling [init] again builds the same fields. *)
Theorem init_binds_store (this : model_class) (db db' : pool) (w w' : world) :
  let C := snd (fst (init this db w)) in
  let queryObject :=
    Query_sql
      {| Descriptor.type := "create-table";
         Descriptor.table := class_table this;
         Descriptor.limit := None;
         Descriptor.order := None;
         Descriptor.where_ := None;
         Descriptor.columns := None;
         Descriptor.values := None;
         Descriptor.returning := None;
         Descriptor.ifNotExists := Some true;
         Descriptor.definition := Some (init_fields this) |} in
  store C = Some db
  /\ name C = name this
  /\ attributes C = attributes this
  /\ fields (snd (fst (init C db' w'))) = fields C
  /\ (query queryObject <> "" ->
      snd (init this db w)
      = submit (query queryObject) (values queryObject)
          (log (Some (query queryObject)) (Some (values queryObject)) w)).
Proof.
  intros C queryObject.
  assert (HC : C = with_store (with_fields this (init_fields this)) db).
  { unfold C, init. destruct (runQuery _ _ _ _ _). reflexivity. }
  repeat split; try (rewrite HC; reflexivity).
  - rewrite init_sets_fields. unfold C. rewrite init_sets_fields.
    f_equal. unfold init_fields. fold C. rewrite HC. reflexivity.
  - intros Hq. unfold init.
    change (class_table (with_fields this (init_fields this))) with (class_table this).
    change (fields (with_fields this (init_fields this))) with (Some (init_fields this)).
    fold queryObject.
    rewrite (runQuery_settles _ _ _ no_options w db) by first [reflexivity | assumption].
    reflexivity.
Qed.

(** X26: an attribute declared with [attribute], under a name other than
    [__proto__], [created_at] and [updated_at], on a class that has no
    attribute named [__proto__], is a field of the class after [init()], with
    the declared definition. *)
Theorem attribute_then_init (this : model_class) (attr : string)
    (properties : value) (db : pool) (w : world) :
  attr <> "" ->
  attr <> "__proto__" ->
  ~ In "__proto__"%string (Object_keys (default [] (attributes this))) ->
  attr <> "created_at" ->
  attr <> "updated_at" ->
  let C := snd (attribute this attr properties) in
  exists fs : object,
    fields (snd (fst (init C db w))) = Some fs
    /\ own_property fs attr = Some properties.
Proof.
  intros Hne _ _ Hc Hu C. exists (init_fields C). split; [apply init_sets_fields|].
  rewrite own_property_init_fields.
  apply String.eqb_neq in Hc. apply String.eqb_neq in Hu. rewrite Hc, Hu. cbn [orb].
  unfold C, attribute. apply String.eqb_neq in Hne. rewrite Hne.
  cbn [snd with_attributes attributes default].
  now rewrite own_property_prop_set, String.eqb_refl.
Qed.

End PhobosPostgresModel.

(** ** The connection settings *)

Lemma split_at (sep : ascii) (u r : string) :
  Postgres.has_char sep u = false ->
  Postgres.split sep (u ++ String sep r) = u :: Postgres.split sep r.
Proof.
  induction u as [|a u IH]; intros Hfree.
  - cbn [append Postgres.split]. now rewrite Ascii.eqb_refl.
  - cbn [Postgres.has_char] in Hfree. apply orb_false_iff in Hfree.
    destruct Hfree as [Ha Hu].
    cbn [append Postgres.split]. rewrite Ha, (IH Hu). reflexivity.
Qed.

Lemma split_free (sep : ascii) (u : string) :
  Postgres.has_char sep u = false -> Postgres.split sep u = [u].
Proof.
  induction u as [|a u IH]; intros Hfree.
  - reflexivity.
  - cbn [Postgres.has_char] in Hfree. apply orb_false_iff in Hfree.
    destruct Hfree as [Ha Hu].
    cbn [Postgres.split]. rewrite Ha, (IH Hu). reflexivity.
Qed.

(** X27: a URI whose credentials are [user:password] and whose path is
    [/database] is taken apart into exactly these parts, with the host and
    the port as [URL.parse] gives them. *)
Theorem parseURIString_parts (URL_parse : string -> Postgres.Url) (uri : string)
    (user password database : string) (host prt : value) :
  URL_parse uri
  = {| Postgres.auth := VStr (user ++ ":" ++ password);
       Postgres.hostname := host;
       Postgres.port := prt;
       Postgres.pathname := VStr ("/" ++ database) |} ->
  Postgres.has_char ":" user = false ->
  Postgres.has_char ":" password = false ->
  Postgres.has_char "/" database = false ->
  Postgres.parseURIString URL_parse uri
  = Return [("user", VStr user); ("password", VStr password); ("host", host);
            ("port", prt); ("database", VStr database)].
Proof.
  intros Hurl Hu Hp Hd. unfold Postgres.parseURIString. rewrite Hurl.
  cbn [Postgres.auth Postgres.pathname Postgres.hostname Postgres.port].
  change (user ++ ":" ++ password)%string with (user ++ String ":" password)%string.
  change ("/" ++ database)%string with ("" ++ String "/" database)%string.
  rewrite (split_at ":" user password Hu), (split_free ":" password Hp).
  rewrite (split_at "/" "" database eq_refl), (split_free "/" database Hd).
  reflexivity.
Qed.

(** X28: only the text between the first and the second colon of the
    credentials is the password, and only the first segment of the path is
    the database: what follows is dropped. *)
Theorem parseURIString_cut (URL_parse : string -> Postgres.Url) (uri : string)
    (user password more database deeper : string) (host prt : value) :
  URL_parse uri
  = {| Postgres.auth := VStr (user ++ ":" ++ password ++ ":" ++ more);
       Postgres.hostname := host;
       Postgres.port := prt;
       Postgres.pathname := VStr ("/" ++ database ++ "/" ++ deeper) |} ->
  Postgres.has_char ":" user = false ->
  Postgres.has_char ":" password = false ->
  Postgres.has_char "/" database = false ->
  Postgres.parseURIString URL_parse uri
  = Return [("user", VStr user); ("password", VStr password); ("host", host);
            ("port", prt); ("database", VStr database)].
Proof.
  intros Hurl Hu Hp Hd. unfold Postgres.parseURIString. rewrite Hurl.
  cbn [Postgres.auth Postgres.pathname Postgres.hostname Postgres.port].
  change (user ++ ":" ++ password ++ ":" ++ more)%string
    with (user ++ String ":" (password ++ String ":" more))%string.
  change ("/" ++ database ++ "/" ++ deeper)%string
    with ("" ++ String "/" (database ++ String "/" deeper))%string.
  rewrite (split_at ":" user _ Hu), (split_at ":" password _ Hp).
  rewrite (split_at "/" "" _ eq_refl), (split_at "/" database _ Hd).
  reflexivity.
Qed.

(** X29: a URI without credentials, or without a path, makes
    [parseURIString] throw a TypeError: [split] is called on [null]. *)
Theorem parseURIString_incomplete (URL_parse : string -> Postgres.Url) (uri : string) :
  Postgres.auth (URL_parse uri) = VNull \/ Postgres.pathname (URL_parse uri) = VNull ->
  Postgres.parseURIString URL_parse uri = Throw TypeError.
Proof.
  intros [H|H]; unfold Postgres.parseURIString; rewrite H; [reflexivity|].
  destruct (Postgres.auth (URL_parse uri)); reflexivity.
Qed.

(** X30: when [connection.uri] is given, every other setting of
    [connection] is ignored, and the host and port of the URI replace the
    defaults even where the URI has none ([null]); the defaults under other
    names stay. *)
Theorem pgConfig_uri (URL_parse : string -> Postgres.Url) (defaults connection : object)
    (u a p : string) :
  prop_get connection "uri" = VStr u ->
  u <> "" ->
  Postgres.auth (URL_parse u) = VStr a ->
  Postgres.pathname (URL_parse u) = VStr p ->
  Postgres.pgConfig URL_parse defaults (Some connection)
  = Postgres.pgConfig URL_parse defaults (Some [("uri", VStr u)])
  /\ exists cfg : object,
       Postgres.pgConfig URL_parse defaults (Some connection) = Return cfg
       /\ own_property cfg "host" = Some (Postgres.hostname (URL_parse u))
       /\ own_property cfg "port" = Some (Postgres.port (URL_parse u))
       /\ forall k : string,
            ~ In k ["user"; "password"; "host"; "port"; "database"]%string ->
            own_property cfg k = own_property defaults k.
Proof.
  intros Huri Hu Ha Hp.
  assert (Htrue : truthy (VStr u) = true).
  { cbn [truthy]. apply String.eqb_neq in Hu. now rewrite Hu. }
  unfold Postgres.pgConfig. rewrite Huri.
  change (prop_get [("uri"%string, VStr u)] "uri") with (VStr u).
  rewrite Htrue. split; [reflexivity|].
  unfold Postgres.parseURIString. rewrite Ha, Hp.
  eexists. split; [reflexivity|].
  change (Object_assign [] [defaults; ?x]) with (assign_from (assign_from [] defaults) x).
  repeat split.
  - rewrite own_property_assign_from. reflexivity.
  - rewrite own_property_assign_from. reflexivity.
  - intros k Hk. rewrite !own_property_assign_from. cbn [own_property].
    repeat match goal with
           | |- context [(?s =? k)%string] =>
               destruct (String.eqb_spec s k) as [<-|_];
               [exfalso; apply Hk; cbn [In]; tauto|]
           end.
    destruct (own_property defaults k); reflexivity.
Qed.

(** ** The statements at concrete inputs *)

Local Abbreviation sample_new := (new Sample.pluralize Sample.toLowerCase).
Local Abbreviation sample_runQuery := (runQuery Sample.pluralize Sample.toLowerCase).
Local Abbreviation sample_save :=
  (save Sample.pluralize Sample.toLowerCase Sample.sql_of Sample.base).
Local Abbreviation sample_all :=
  (all Sample.pluralize Sample.toLowerCase Sample.sql_of).
Local Abbreviation sample_one :=
  (one Sample.pluralize Sample.toLowerCase Sample.sql_of).
Local Abbreviation sample_init :=
  (init Sample.pluralize Sample.toLowerCase Sample.sql_of).

Ltac distinct_keys :=
  repeat (apply NoDup_cons; [simpl; intuition discriminate|]); apply NoDup_nil.

(** The class of the test suite is what [attribute] and [init] make of
    [class Model]. *)
Lemma TestModel_by_init (db : pool) :
  snd (fst (sample_init (snd (attribute Sample.Model "username" Sample.varchar30))
              db Sample.quiet))
  = Sample.TestModel db.
Proof. reflexivity. Qed.

(** C3 (the code departs from it): [all()] should resolve to every returned
    row as an instance, in order.  With two rows in the result, [all()]
    resolves to a single instance, the one of the last row: it calls
    [runQuery] without options and [last] defaults to true. *)
Theorem all_resolves_one_instance :
  sample_all (Sample.TestModel (Sample.pool_of [Sample.billy; Sample.bill]))
    None None None Sample.quiet
  = (Resolved
       (One (Model {| table := "models"; _dirty := []; _canonical := Sample.bill |})),
     {| logged := [(Some "select models", Some [VNum 20])];
        submitted := [("select models", [VNum 20])];
        connected := [] |}).
Proof. vm_compute. reflexivity. Qed.

(** C2, as stated, fails: an instance read from the store and then changed
    is saved, the write succeeds and returns the new row, and afterwards the
    dirty map of the instance still holds the change and its canonical map
    still holds the old row. *)
Lemma save_leaves_instance_counterexample :
  let C := Sample.TestModel (Sample.pool_of [Sample.helen]) in
  let this := snd (set (sample_new C (Some Sample.billy)) "username" (VStr "helen")) in
  let after := sample_save C this Sample.quiet in
  _dirty this <> []
  /\ fst (fst after)
     = Return (Resolved (One (Model {| table := "models"; _dirty := [];
                                       _canonical := Sample.helen |})))
  /\ _dirty (snd (fst after)) = [("username", VStr "helen")]
  /\ _canonical (snd (fst after)) = Sample.billy.
Proof. vm_compute. repeat split. discriminate. Qed.

Lemma save_resolves_new_instance_witness :
  let C := Sample.TestModel (Sample.pool_of [Sample.helen]) in
  let this := snd (set (sample_new C (Some Sample.billy)) "username" (VStr "helen")) in
  sample_save C this Sample.quiet
  = (Return (Resolved (One (Model (sample_new C (Some Sample.helen))))),
     this,
     submit "update models" [VStr "helen"; VNum 1]
       (log (Some "update models") (Some [VStr "helen"; VNum 1]) Sample.quiet)).
Proof.
  intros C this.
  apply (save_resolves_new_instance Sample.pluralize Sample.toLowerCase
           Sample.sql_of Sample.base C this Sample.quiet
           [("id", serial_primary_key); ("username", Sample.varchar30);
            ("created_at", timestamp_now); ("updated_at", timestamp_now)]
           (Sample.pool_of [Sample.helen])
           {| rows := [Sample.helen]; rowCount := 1 |}).
  - vm_compute. reflexivity.
  - reflexivity.
  - reflexivity.
  - vm_compute. discriminate.
  - reflexivity.
  - simpl. discriminate.
  - reflexivity.
Defined.

Lemma save_clean_witness :
  let C := Sample.TestModel (Sample.pool_of [Sample.helen]) in
  let this := sample_new C (Some Sample.billy) in
  _dirty this = []
  /\ sample_save C this Sample.quiet
     = (Return (Resolved (Many [])), this, log None None Sample.quiet)
  /\ submitted (log None None Sample.quiet) = submitted Sample.quiet
  /\ connected (log None None Sample.quiet) = connected Sample.quiet.
Proof.
  intros C this. split; [reflexivity|].
  apply (save_clean Sample.pluralize Sample.toLowerCase Sample.sql_of Sample.base
           C this Sample.quiet).
  reflexivity.
Defined.

Lemma runQuery_zero_rows_witness :
  sample_runQuery (Sample.TestModel (Sample.pool_of []))
    (Some "select models") (Some [VNum 20])
    {| stream := Some false; lean := Some true; first := Some true; last := Some true |}
    Sample.quiet
  = (Resolved (Many []),
     submit "select models" [VNum 20]
       (log (Some "select models") (Some [VNum 20]) Sample.quiet)).
Proof.
  apply (runQuery_zero_rows Sample.pluralize Sample.toLowerCase
           (Sample.TestModel (Sample.pool_of [])) "select models" [VNum 20]
           _ Sample.quiet (Sample.pool_of []) {| rows := []; rowCount := 0 |}).
  - reflexivity.
  - discriminate.
  - reflexivity.
  - reflexivity.
  - reflexivity.
  - reflexivity.
Defined.

Lemma one_falsy_id_throws_witness :
  truthy (VNum 0) = false
  /\ sample_one (Sample.TestModel (Sample.pool_of [Sample.billy])) (VNum 0) Sample.quiet
     = (Throw (Error "Model#one() requires an ID parameter"), Sample.quiet).
Proof.
  split; [reflexivity|].
  apply (one_falsy_id_throws Sample.pluralize Sample.toLowerCase Sample.sql_of
           (Sample.TestModel (Sample.pool_of [Sample.billy])) (VNum 0) Sample.quiet).
  reflexivity.
Defined.

Lemma new_by_id_witness :
  let C := Sample.TestModel (Sample.pool_of []) in
  let fresh := [("id", VNum 0); ("username", VStr "zed")] in
  (_dirty (sample_new C (Some fresh)) = fresh
   /\ _canonical (sample_new C (Some fresh)) = [])
  /\ (_canonical (sample_new C (Some Sample.billy)) = Sample.billy
      /\ _dirty (sample_new C (Some Sample.billy)) = []).
Proof.
  intros C fresh. split.
  - apply (proj1 (new_by_id Sample.pluralize Sample.toLowerCase C fresh)).
    reflexivity.
  - apply (proj2 (new_by_id Sample.pluralize Sample.toLowerCase C Sample.billy)).
    reflexivity.
Defined.

(** C8, as stated, fails: a row that has an [id] field, here 0, is stored as
    the dirty map, so every field [toObject()] shows comes from the dirty
    map. *)
Lemma toObject_new_id_zero_counterexample :
  let row := [("id", VNum 0); ("username", VStr "zed")] in
  let this := sample_new (Sample.TestModel (Sample.pool_of [])) (Some row) in
  own_property row "id" = Some (VNum 0)
  /\ toObject this = row
  /\ _dirty this = row
  /\ _dirty this <> []
  /\ _canonical this = [].
Proof. vm_compute. repeat split. discriminate. Qed.

Lemma toObject_new_persisted_witness :
  let C := Sample.TestModel (Sample.pool_of []) in
  let zed := [("id", VNum 0); ("username", VStr "zed")] in
  (toObject (sample_new C (Some Sample.billy)) = Sample.billy
   /\ _dirty (sample_new C (Some Sample.billy)) = []
   /\ _canonical (sample_new C (Some Sample.billy)) = Sample.billy)
  /\ (toObject (sample_new C (Some zed)) = zed
      /\ _dirty (sample_new C (Some zed)) = zed
      /\ _canonical (sample_new C (Some zed)) = []).
Proof.
  intros C zed. split.
  - destruct (toObject_new_persisted Sample.pluralize Sample.toLowerCase C Sample.billy)
      as (Hrow & Htruthy & _).
    + simpl. distinct_keys.
    + simpl. intuition discriminate.
    + destruct (Htruthy eq_refl) as [Hd Hc]. repeat split; assumption.
  - destruct (toObject_new_persisted Sample.pluralize Sample.toLowerCase C zed)
      as (Hrow & _ & Hfalsy).
    + simpl. distinct_keys.
    + simpl. intuition discriminate.
    + destruct (Hfalsy eq_refl) as [Hd Hc]. repeat split; assumption.
Defined.

(** C9, as stated, fails: a class that declares an attribute named [id]
    gets that definition for [id] after [init()], not the serial primary
    key. *)
Lemma init_declared_id_counterexample :
  let uuid := VObject [("type", VStr "uuid")] in
  let C := snd (attribute Sample.Model "id" uuid) in
  let C' := snd (fst (sample_init C (Sample.pool_of []) Sample.quiet)) in
  fields C'
  = Some [("id", uuid); ("created_at", timestamp_now); ("updated_at", timestamp_now)]
  /\ prop_get (default [] (fields C')) "id" <> serial_primary_key.
Proof. vm_compute. split; [reflexivity | discriminate]. Qed.

(** ** The further properties at concrete inputs *)

Local Abbreviation sample_delete :=
  (delete Sample.pluralize Sample.toLowerCase Sample.sql_of Sample.base).
Local Abbreviation sample_count :=
  (count Sample.pluralize Sample.toLowerCase Sample.sql_of).
Local Abbreviation sample_find :=
  (find Sample.pluralize Sample.toLowerCase Sample.sql_of).

Ltac settle :=
  first [ reflexivity | discriminate
        | vm_compute; first [reflexivity | discriminate] ].

Lemma set_then_get_witness :
  let this := sample_new (Sample.TestModel (Sample.pool_of [])) (Some Sample.billy) in
  truthy (VStr "helen") = true
  /\ fst (set this "username" (VStr "helen")) = VStr "helen"
  /\ get (snd (set this "username" (VStr "helen"))) "username" = VStr "helen".
Proof.
  intros this. split; [reflexivity|].
  apply (set_then_get this "username" (VStr "helen")); [discriminate | reflexivity].
Defined.

Lemma set_other_field_witness :
  let this := sample_new (Sample.TestModel (Sample.pool_of [])) (Some Sample.billy) in
  get (snd (set this "username" (VStr "helen"))) "id" = get this "id"
  /\ own_property (toObject (snd (set this "username" (VStr "helen")))) "id"
     = own_property (toObject this) "id".
Proof.
  intros this.
  apply (set_other_field this "username" "id" (VStr "helen")); discriminate.
Defined.

Lemma runQuery_without_query_witness :
  sample_runQuery (Sample.TestModel (Sample.pool_of [Sample.billy]))
    (Some "") (Some []) no_options Sample.quiet
  = (Resolved (Many []), log (Some "") (Some []) Sample.quiet).
Proof.
  apply (runQuery_without_query Sample.pluralize Sample.toLowerCase).
  right. left. reflexivity.
Defined.

Lemma runQuery_rejects_witness :
  sample_runQuery (Sample.TestModel Fixtures.refusing)
    (Some "select models") (Some [VNum 20]) no_options Sample.quiet
  = (Rejected (DriverError "connection refused"),
     submit "select models" [VNum 20]
       (log (Some "select models") (Some [VNum 20]) Sample.quiet)).
Proof.
  apply (runQuery_rejects Sample.pluralize Sample.toLowerCase
           (Sample.TestModel Fixtures.refusing) "select models" [VNum 20]
           no_options Sample.quiet Fixtures.refusing); settle.
Defined.

Lemma runQuery_without_store_witness :
  sample_runQuery Sample.Model (Some "select models") (Some [VNum 20])
    no_options Sample.quiet
  = (Rejected TypeError, log (Some "select models") (Some [VNum 20]) Sample.quiet).
Proof.
  apply (runQuery_without_store Sample.pluralize Sample.toLowerCase); settle.
Defined.

Lemma runQuery_first_witness :
  fst (sample_runQuery (Sample.TestModel (Sample.pool_of [Sample.billy; Sample.bill]))
         (Some "select models") (Some [VNum 20])
         {| stream := None; lean := Some true; first := Some true; last := None |}
         Sample.quiet)
  = Resolved (One (Raw (VObject Sample.billy))).
Proof.
  apply (runQuery_first Sample.pluralize Sample.toLowerCase
           (Sample.TestModel (Sample.pool_of [Sample.billy; Sample.bill]))
           "select models" [VNum 20]
           {| stream := None; lean := Some true; first := Some true; last := None |}
           Sample.quiet (Sample.pool_of [Sample.billy; Sample.bill])
           {| rows := [Sample.billy; Sample.bill]; rowCount := 2 |}
           Sample.billy [Sample.bill]); settle.
Defined.

Lemma runQuery_every_row_witness :
  let C := Sample.TestModel (Sample.pool_of [Sample.billy; Sample.bill]) in
  fst (sample_runQuery C (Some "select models") (Some [VNum 20])
         {| stream := None; lean := None; first := None; last := Some false |}
         Sample.quiet)
  = Resolved (Many [Model (sample_new C (Some Sample.billy));
                    Model (sample_new C (Some Sample.bill))]).
Proof.
  intros C.
  apply (runQuery_every_row Sample.pluralize Sample.toLowerCase C
           "select models" [VNum 20]
           {| stream := None; lean := None; first := None; last := Some false |}
           Sample.quiet (Sample.pool_of [Sample.billy; Sample.bill])
           {| rows := [Sample.billy; Sample.bill]; rowCount := 2 |}); settle.
Defined.

Lemma runQuery_count_without_rows_witness :
  let C := Sample.TestModel Fixtures.affecting in
  fst (sample_runQuery C (Some "update models") (Some [VStr "helen"])
         no_options Sample.quiet)
  = Resolved (One (Model (sample_new C None))).
Proof.
  intros C.
  apply (runQuery_count_without_rows Sample.pluralize Sample.toLowerCase C
           "update models" [VStr "helen"] no_options Sample.quiet
           Fixtures.affecting {| rows := []; rowCount := 1 |}); settle.
Defined.

Lemma runQuery_stream_witness :
  let C := Sample.TestModel (Sample.pool_of [Sample.billy]) in
  let o := {| stream := Some true; lean := None; first := None; last := None |} in
  snd (sample_runQuery C (Some "select models") (Some [VNum 20]) o Sample.quiet)
  = submit "select models" [VNum 20]
      (connect "select models" [VNum 20]
         (log (Some "select models") (Some [VNum 20]) Sample.quiet))
  /\ fst (sample_runQuery C (Some "select models") (Some [VNum 20]) o Sample.quiet)
     = Resolved (QueryStream "select models" [VNum 20]).
Proof.
  intros C o.
  destruct (runQuery_stream Sample.pluralize Sample.toLowerCase C
              "select models" [VNum 20] o Sample.quiet
              (Sample.pool_of [Sample.billy])) as [Hworld Hstream]; try settle.
  split; [exact Hworld | apply Hstream; reflexivity].
Defined.

Lemma delete_unsaved_witness :
  let C := Sample.TestModel (Sample.pool_of []) in
  let this := sample_new C (Some Fixtures.fresh) in
  sample_delete C this Sample.quiet
  = (Return (Resolved (Many [])), this, log None None Sample.quiet).
Proof.
  intros C this.
  apply (delete_unsaved Sample.pluralize Sample.toLowerCase Sample.sql_of
           Sample.base C this Sample.quiet); settle.
Defined.

Lemma delete_persisted_witness :
  let C := Sample.TestModel Fixtures.affecting in
  let this := sample_new C (Some Sample.billy) in
  sample_delete C this Sample.quiet
  = (Return (Resolved (One (Model (sample_new C None)))),
     this,
     submit "delete models" [VNum 1]
       (log (Some "delete models") (Some [VNum 1]) Sample.quiet)).
Proof.
  intros C this.
  apply (delete_persisted Sample.pluralize Sample.toLowerCase Sample.sql_of
           Sample.base C this Sample.quiet Fixtures.affecting
           {| rows := []; rowCount := 1 |}); settle.
Defined.

Lemma one_found_witness :
  let C := Sample.TestModel (Sample.pool_of [Sample.billy]) in
  sample_one C (VNum 1) Sample.quiet
  = (Return (Resolved (One (Model (sample_new C (Some Sample.billy))))),
     submit "select models" [VNum 1; VNum 1]
       (log (Some "select models") (Some [VNum 1; VNum 1]) Sample.quiet)).
Proof.
  intros C.
  apply (one_found Sample.pluralize Sample.toLowerCase Sample.sql_of C (VNum 1)
           Sample.quiet (Sample.pool_of [Sample.billy])
           {| rows := [Sample.billy]; rowCount := 1 |} Sample.billy []); settle.
Defined.

Lemma one_not_found_witness :
  fst (sample_one (Sample.TestModel (Sample.pool_of [])) (VNum 111) Sample.quiet)
  = Return (Resolved (Many [])).
Proof.
  apply (one_not_found Sample.pluralize Sample.toLowerCase Sample.sql_of
           (Sample.TestModel (Sample.pool_of [])) (VNum 111) Sample.quiet
           (Sample.pool_of []) {| rows := []; rowCount := 0 |}); settle.
Defined.

Lemma count_resolves_instance_witness :
  fst (sample_count (Sample.TestModel (Sample.pool_of [Fixtures.count_row]))
         (Some [("username", VStr "phobosman")]) Sample.quiet)
  = Resolved (One (Model {| table := "models"; _dirty := Fixtures.count_row;
                            _canonical := [] |})).
Proof.
  apply (count_resolves_instance Sample.pluralize Sample.toLowerCase Sample.sql_of
           (Sample.TestModel (Sample.pool_of [Fixtures.count_row]))
           (Some [("username", VStr "phobosman")]) Sample.quiet
           (Sample.pool_of [Fixtures.count_row]) Fixtures.count_row); settle.
Defined.

Lemma find_resolves_last_witness :
  let C := Sample.TestModel (Sample.pool_of [Sample.billy; Sample.bill]) in
  sample_find C None None None (Some [("username", VStr "phobosman")]) Sample.quiet
  = (Resolved (One (Model (sample_new C (Some Sample.bill)))),
     submit "select models" [VStr "phobosman"; VNum 20]
       (log (Some "select models") (Some [VStr "phobosman"; VNum 20]) Sample.quiet)).
Proof.
  intros C.
  apply (find_resolves_last Sample.pluralize Sample.toLowerCase Sample.sql_of C
           None None None (Some [("username", VStr "phobosman")]) Sample.quiet
           (Sample.pool_of [Sample.billy; Sample.bill])
           {| rows := [Sample.billy; Sample.bill]; rowCount := 2 |}); settle.
Defined.

Lemma save_uninitialised_witness :
  let this := sample_new Sample.Model (Some Fixtures.fresh) in
  sample_save Sample.Model this Sample.quiet = (Throw TypeError, this, Sample.quiet).
Proof.
  intros this.
  apply (save_uninitialised Sample.pluralize Sample.toLowerCase Sample.sql_of
           Sample.base Sample.Model this Sample.quiet); settle.
Defined.

Lemma save_skipped_witness :
  let C := Sample.TestModel (Sample.pool_of [Sample.billy]) in
  let this := snd (set (sample_new C None) "0" (VStr "zero")) in
  _dirty this = [("0", VStr "zero")]
  /\ sample_save C this Sample.quiet
     = (Return (Resolved (Many [])), this, log None None Sample.quiet).
Proof.
  intros C this. split; [reflexivity|].
  apply (save_skipped Sample.pluralize Sample.toLowerCase Sample.sql_of
           Sample.base C this Sample.quiet); settle.
Defined.



Lemma attribute_declares_witness :
  let C := snd (attribute Sample.Model "username" Sample.varchar30) in
  fst (attribute Sample.Model "username" Sample.varchar30) = Return tt
  /\ name C = "Model" /\ fields C = None /\ store C = None
  /\ forall k : string,
       own_property (default [] (attributes C)) k
       = if "username" =? k then Some Sample.varchar30
         else own_property (default [] (attributes Sample.Model)) k.
Proof.
  apply (proj2 (attribute_declares Sample.Model "username" Sample.varchar30));
    discriminate.
Defined.

Lemma init_column_order_witness :
  let C := snd (attribute Sample.Model "username" Sample.varchar30) in
  fields (snd (fst (sample_init C (Sample.pool_of []) Sample.quiet)))
  = Some [("id", serial_primary_key); ("username", Sample.varchar30);
          ("created_at", timestamp_now); ("updated_at", timestamp_now)].
Proof.
  intros C.
  apply (init_column_order Sample.pluralize Sample.toLowerCase Sample.sql_of C
           (Sample.pool_of []) Sample.quiet).
  - reflexivity.
  - vm_compute. intuition discriminate.
  - vm_compute. distinct_keys.
  - vm_compute. intuition discriminate.
  - vm_compute. intuition discriminate.
  - vm_compute. intuition discriminate.
Defined.

Lemma init_binds_store_witness :
  let db := Sample.pool_of [] in
  let C := snd (fst (sample_init Sample.Model db Sample.quiet)) in
  store C = Some db
  /\ snd (sample_init Sample.Model db Sample.quiet)
     = submit "create-table models" []
         (log (Some "create-table models") (Some []) Sample.quiet).
Proof.
  intros db C.
  destruct (init_binds_store Sample.pluralize Sample.toLowerCase Sample.sql_of
              Sample.Model db db Sample.quiet Sample.quiet)
    as (Hstore & _ & _ & _ & Hworld).
  split; [exact Hstore | apply Hworld; settle].
Defined.

Lemma attribute_then_init_witness :
  let C := snd (attribute Sample.Model "username" Sample.varchar30) in
  exists fs : object,
    fields (snd (fst (sample_init C (Sample.pool_of []) Sample.quiet))) = Some fs
    /\ own_property fs "username" = Some Sample.varchar30.
Proof.
  apply (attribute_then_init Sample.pluralize Sample.toLowerCase Sample.sql_of
           Sample.Model "username" Sample.varchar30 (Sample.pool_of []) Sample.quiet);
    first [discriminate | (vm_compute; intuition discriminate)].
Defined.

Lemma parseURIString_parts_witness :
  Postgres.parseURIString Fixtures.URL_parse "postgres://postgres:@localhost:5432/test"
  = Return [("user", VStr "postgres"); ("password", VStr ""); ("host", VStr "localhost");
            ("port", VStr "5432"); ("database", VStr "test")].
Proof.
  apply (parseURIString_parts Fixtures.URL_parse
           "postgres://postgres:@localhost:5432/test" "postgres" "" "test"
           (VStr "localhost") (VStr "5432")); settle.
Defined.

Lemma parseURIString_cut_witness :
  Postgres.parseURIString
    (fun _ => {| Postgres.auth := VStr "phobos:se:cret";
                 Postgres.hostname := VStr "localhost";
                 Postgres.port := VNull;
                 Postgres.pathname := VStr "/test/public" |})
    "postgres://phobos:se:cret@localhost/test/public"
  = Return [("user", VStr "phobos"); ("password", VStr "se"); ("host", VStr "localhost");
            ("port", VNull); ("database", VStr "test")].
Proof.
  apply (parseURIString_cut _ "postgres://phobos:se:cret@localhost/test/public"
           "phobos" "se" "cret" "test" "public" (VStr "localhost") VNull); settle.
Defined.

Lemma parseURIString_incomplete_witness :
  Postgres.parseURIString
    (fun _ => {| Postgres.auth := VNull;
                 Postgres.hostname := VStr "localhost";
                 Postgres.port := VStr "5432";
                 Postgres.pathname := VStr "/test" |})
    "postgres://localhost:5432/test"
  = Throw TypeError.
Proof.
  apply (parseURIString_incomplete _ "postgres://localhost:5432/test").
  left. reflexivity.
Defined.

Lemma pgConfig_uri_witness :
  let uri := VStr "postgres://postgres:@localhost:5432/test" in
  Postgres.pgConfig Fixtures.URL_parse Fixtures.defaults
    (Some [("uri", uri); ("port", VNum 6543); ("ssl", VBool true)])
  = Postgres.pgConfig Fixtures.URL_parse Fixtures.defaults (Some [("uri", uri)]).
Proof.
  intros uri.
  apply (proj1 (pgConfig_uri Fixtures.URL_parse Fixtures.defaults
                  [("uri", uri); ("port", VNum 6543); ("ssl", VBool true)]
                  "postgres://postgres:@localhost:5432/test" "postgres:" "/test"
                  eq_refl ltac:(discriminate) eq_refl eq_refl)).
Defined.

Lemma toObject_union_witness :
  let this :=
    snd (set (sample_new (Sample.TestModel (Sample.pool_of [])) (Some Sample.billy))
           "username" (VStr "helen")) in
  NoDup (Object_keys (toObject this))
  /\ forall k : string,
       own_property (toObject this) k
       = match own_property (_dirty this) k with
         | Some v => Some v
         | None => own_property (_canonical this) k
         end.
Proof.
  intros this. apply (toObject_union this); simpl; intuition discriminate.
Defined.

(** C6, as stated, fails: a statement without RETURNING yields no rows while
    the pool reports one affected row, and the promise resolves to one item
    made from no row, a new empty instance or, with [lean], [undefined], not
    to the empty array. *)
Lemma runQuery_rowless_count_counterexample :
  let C := Sample.TestModel Fixtures.affecting in
  let lean_only := {| stream := None; lean := Some true; first := None; last := None |} in
  answer Fixtures.affecting "delete models" [VNum 1]
  = Succeeded {| rows := []; rowCount := 1 |}
  /\ fst (sample_runQuery C (Some "delete models") (Some [VNum 1]) no_options Sample.quiet)
     = Resolved (One (Model {| table := "models"; _dirty := []; _canonical := [] |}))
  /\ fst (sample_runQuery C (Some "delete models") (Some [VNum 1]) lean_only Sample.quiet)
     = Resolved (One (Raw VUndefined))
  /\ fst (sample_runQuery C (Some "delete models") (Some [VNum 1]) no_options Sample.quiet)
     <> Resolved (Many []).
Proof. vm_compute. repeat split. discriminate. Qed.

Lemma init_fields_columns_witness :
  let C := snd (attribute Sample.Model "username" Sample.varchar30) in
  exists fs : object,
    fields (snd (fst (sample_init C (Sample.pool_of []) Sample.quiet))) = Some fs
    /\ forall k : string,
         own_property fs k
         = if (k =? "updated_at") || (k =? "created_at")
           then Some timestamp_now
           else match own_property (default [] (attributes C)) k with
                | Some declared => Some declared
                | None => if k =? "id" then Some serial_primary_key else None
                end.
Proof.
  intros C.
  apply (init_fields_columns Sample.pluralize Sample.toLowerCase Sample.sql_of C
           (Sample.pool_of []) Sample.quiet).
  vm_compute. intuition discriminate.
Defined.

Lemma toObject_last_write_witness :
  let this := sample_new (Sample.TestModel (Sample.pool_of [])) (Some Sample.billy) in
  own_property
    (toObject (set_all this ([("username", VStr "helen")] ++ [("username", VStr "")])))
    "username"
  = Some (VStr "").
Proof.
  intros this.
  apply (toObject_last_write this [("username", VStr "helen")] "username" (VStr "")).
  discriminate.
Defined.
